(** * blum-clicker: the detection pipeline and the coordinate loader

    A shallow embedding of [clicker/color_detector.py] (class [Detection])
    and [clicker/coordinate_controller.py] (class [Coordinate]).

    numpy arrays are objects of a store; the [Detection] instance is a record
    of attributes threaded through a state-and-exception monad; the OpenCV
    calls the program makes are recorded in a call log. *)

From Stdlib Require Import ZArith Lia Ascii Reals.
From stdpp Require Import base numbers option list strings gmap.

Local Open Scope Z_scope.

(** ** Python results *)

Inductive exn : Type :=
  | AttributeError      (* an attribute of [self] read before it was set *)
  | ValueError          (* [int] on a string that is no decimal literal *)
  | UndefinedValueError (* decouple: option missing from the repository *)
  | cv2_error           (* OpenCV rejected the array it was given *)
  | DanglingReference.  (* never raised from a well-formed store *)

Inductive result (A : Type) : Type :=
  | Ok (a : A)
  | Raise (e : exn).
Arguments Ok {A} a.
Arguments Raise {A} e.

(** ** Arrays *)

(** A pixel of a three-channel 8-bit image, channel order as stored. *)
Definition Pixel : Type := Z * Z * Z.

(** Images are lists of rows. *)
Definition Image : Type := list (list Pixel).
Definition Mask : Type := list (list Z).

Inductive ndarray : Type :=
  | Img (im : Image)
  | Msk (m : Mask).

(** A contour is the list of its points [(x, y)]: [x] is the column. *)
Definition Contour : Type := list (Z * Z).
Definition Rect : Type := Z * Z * Z * Z.

Definition at_ {A} (a : list (list A)) (r c : Z) : option A :=
  if bool_decide (0 ≤ r ∧ 0 ≤ c)
  then row ← a !! Z.to_nat r; row !! Z.to_nat c
  else None.




(** ** The OpenCV functions the program calls *)

Module cv2.

(** [cv2.inRange(src, lowerb, upperb)]: 255 where every channel lies
    between the bounds, both ends included, 0 elsewhere. *)
Definition in_band (lowerb upperb p : Pixel) : bool :=
  let '(l0, l1, l2) := lowerb in
  let '(u0, u1, u2) := upperb in
  let '(p0, p1, p2) := p in
  (l0 <=? p0) && (p0 <=? u0) && (l1 <=? p1) && (p1 <=? u1)
  && (l2 <=? p2) && (p2 <=? u2).

Definition inRange (src : Image) (lowerb upperb : Pixel) : Mask :=
  (λ row : list Pixel,
     (λ p, if in_band lowerb upperb p then 255 else 0) <$> row)
  <$> (src : list (list Pixel)).

(** [cv2.erode] and [cv2.dilate] with [kernel=None], [iterations=1]: the
    3x3 rectangle anchored at its centre; pixels outside the image do not
    take part (the default border value is the neutral one). *)
Definition kernel3x3 : list (Z * Z) :=
  [(-1,-1); (-1,0); (-1,1); (0,-1); (0,0); (0,1); (1,-1); (1,0); (1,1)].

Definition neighbourhood {A} (a : list (list A)) (r c : nat) : list A :=
  omap (λ d, at_ a (Z.of_nat r + d.1) (Z.of_nat c + d.2)) kernel3x3.

Definition morph {A} (op : A → A → A) (border : A) (a : list (list A))
  : list (list A) :=
  imap (λ r row, imap (λ c _, foldr op border (neighbourhood a r c)) row) a.

Definition pixel_op (op : Z → Z → Z) (p q : Pixel) : Pixel :=
  (op p.1.1 q.1.1, op p.1.2 q.1.2, op p.2 q.2).

Definition erode (src : ndarray) : ndarray :=
  match src with
  | Msk m => Msk (morph Z.min 255 m)
  | Img im => Img (morph (pixel_op Z.min) (255, 255, 255) im)
  end.

Definition dilate (src : ndarray) : ndarray :=
  match src with
  | Msk m => Msk (morph Z.max 0 m)
  | Img im => Img (morph (pixel_op Z.max) (0, 0, 0) im)
  end.

(** [cv2.boundingRect] of a point set: the smallest upright rectangle
    [(x, y, w, h)] that holds every point. *)
Definition boundingRect (cnt : Contour) : Rect :=
  match cnt with
  | [] => (0, 0, 0, 0)
  | p :: ps =>
      let x0 := foldr Z.min p.1 (fst <$> ps) in
      let x1 := foldr Z.max p.1 (fst <$> ps) in
      let y0 := foldr Z.min p.2 (snd <$> ps) in
      let y1 := foldr Z.max p.2 (snd <$> ps) in
      (x0, y0, x1 - x0 + 1, y1 - y0 + 1)
  end.

End cv2.

(** What stays a parameter of the development: the per-pixel colour
    conversion of [cv2.cvtColor(_, cv2.COLOR_BGR2HSV)] and the contour
    tracer [cv2.findContours(_, cv2.RETR_EXTERNAL, cv2.CHAIN_APPROX_SIMPLE)],
    whose order of discovery is the library's own. *)
Class OpenCV : Type := {
  bgr2hsv : Pixel → Pixel;
  findContours : Mask → list Contour;
}.

(** A point is foreground when it names a non-zero pixel of the mask. *)
Definition foreground (m : Mask) (p : Z * Z) : Prop :=
  ∃ v, at_ m p.2 p.1 = Some v ∧ v ≠ 0.

(** The part of the contract of [findContours] the proofs rely on: a
    contour is a non-empty list of foreground pixels of its mask. *)
Definition contours_on_foreground (cv : OpenCV) : Prop :=
  ∀ (m : Mask) (c : Contour),
    c ∈ findContours m → c ≠ [] ∧ Forall (foreground m) c.

(** ** The store, the [Detection] object and the call log *)

(** Arrays live in a store that only grows: every OpenCV call of the
    program returns a new array ([dst] is never passed) and leaves its
    operands as they are. *)
Definition loc : Type := nat.

Inductive CvCall : Type :=
  | CvtColor (src dst : loc)
  | InRange (src : loc) (lowerb upperb : Pixel) (dst : loc)
  | Erode (src dst : loc)
  | Dilate (src dst : loc)
  | FindContours (src : loc).

(** The attributes of a [Detection] instance. The three masks are absent
    until [set_masks] assigns them. *)
Record Detection : Type := {
  start_x : Z;
  start_y : Z;
  height : Z;
  width : Z;
  mask_pink : option loc;
  mask_green : option loc;
  mask_bomb : option loc;
}.

(** The colour bounds [__init__] stores in [self]; no method reassigns
    them, so they are constants here. *)
Definition lower_pink : Pixel := (160, 20, 100).
Definition upper_pink : Pixel := (180, 255, 255).
Definition lower_green : Pixel := (40, 50, 50).
Definition upper_green : Pixel := (80, 255, 255).
Definition lower_bomb : Pixel := (0, 0, 50).
Definition upper_bomb : Pixel := (180, 50, 200).

(** [Detection.__init__] *)
Definition init (start_x start_y height width : Z) : Detection :=
  {| start_x := start_x; start_y := start_y; height := height; width := width;
     mask_pink := None; mask_green := None; mask_bomb := None |}.

Record State : Type := {
  heap : list ndarray;
  self : Detection;
  calls : list CvCall;
}.

Definition M (A : Type) : Type := State → result (A * State).

#[global] Instance M_ret : MRet M := λ A a s, Ok (a, s).
#[global] Instance M_bind : MBind M := λ A B f m s,
  match m s with
  | Ok (a, s') => f a s'
  | Raise e => Raise e
  end.

Definition raise {A} (e : exn) : M A := λ _, Raise e.

Definition deref (l : loc) : M ndarray := λ s,
  match heap s !! l with
  | Some a => Ok (a, s)
  | None => Raise DanglingReference
  end.

Definition alloc (a : ndarray) : M loc := λ s,
  Ok (length (heap s),
      {| heap := heap s ++ [a]; self := self s; calls := calls s |}).

Definition log (c : CvCall) : M unit := λ s,
  Ok ((), {| heap := heap s; self := self s; calls := calls s ++ [c] |}).

Definition get_self : M Detection := λ s, Ok (self s, s).

(** [self.attr], an [AttributeError] when the attribute was never set. *)
Definition getattr {A} (attr : Detection → option A) : M A := λ s,
  match attr (self s) with
  | Some a => Ok (a, s)
  | None => Raise AttributeError
  end.

Definition setattr (upd : Detection → Detection) : M unit := λ s,
  Ok ((), {| heap := heap s; self := upd (self s); calls := calls s |}).

Definition with_mask_pink (l : loc) (d : Detection) : Detection :=
  {| start_x := start_x d; start_y := start_y d; height := height d;
     width := width d; mask_pink := Some l; mask_green := mask_green d;
     mask_bomb := mask_bomb d |}.
Definition with_mask_green (l : loc) (d : Detection) : Detection :=
  {| start_x := start_x d; start_y := start_y d; height := height d;
     width := width d; mask_pink := mask_pink d; mask_green := Some l;
     mask_bomb := mask_bomb d |}.
Definition with_mask_bomb (l : loc) (d : Detection) : Detection :=
  {| start_x := start_x d; start_y := start_y d; height := height d;
     width := width d; mask_pink := mask_pink d; mask_green := mask_green d;
     mask_bomb := Some l |}.

(** What [detect_colors] hands back next to the frame: the first pink
    position alone (a tuple) or the list of green positions. *)
Inductive Positions : Type :=
  | Single (p : Z * Z)
  | Many (l : list (Z * Z)).

(** [np.linalg.norm(v) < r] for an integer vector [v] and an integer [r].
    The norm is the double nearest to the square root of [v.v]; rounding is
    monotone and [r] is itself a double, so for coordinates of screen size
    the comparison holds exactly when [v.v < r * r]. *)
Definition linalg_norm_lt (v : Z * Z) (r : Z) : bool :=
  v.1 * v.1 + v.2 * v.2 <? r * r.

(** [int(n * 0.1)]: the double product truncated towards zero. The double
    0.1 exceeds one tenth by less than 2^-56, so for a height of screen
    size the product never crosses an integer other than at the multiples
    of ten, where it rounds to the quotient itself. *)
Definition int_tenth (n : Z) : Z := n `quot` 10.

Section WithOpenCV.
Context {cv : OpenCV}.

Definition cvtColor_BGR2HSV (im : Image) : Image :=
  (λ row : list Pixel, bgr2hsv <$> row) <$> (im : list (list Pixel)).

(** [cv2.cvtColor(src, cv2.COLOR_BGR2HSV)] *)
Definition call_cvtColor (src : loc) : M loc :=
  a ← deref src;
  match a with
  | Img im =>
      dst ← alloc (Img (cvtColor_BGR2HSV im));
      log (CvtColor src dst);;
      mret dst
  | Msk _ => raise cv2_error
  end.

(** [cv2.inRange(src, lowerb, upperb)]; the program only ever passes the
    three-channel image [cvtColor] returned. *)
Definition call_inRange (src : loc) (lowerb upperb : Pixel) : M loc :=
  a ← deref src;
  match a with
  | Img im =>
      dst ← alloc (Msk (cv2.inRange im lowerb upperb));
      log (InRange src lowerb upperb dst);;
      mret dst
  | Msk _ => raise cv2_error
  end.

(** [cv2.erode(src, None, iterations=1)] *)
Definition call_erode (src : loc) : M loc :=
  a ← deref src;
  dst ← alloc (cv2.erode a);
  log (Erode src dst);;
  mret dst.

(** [cv2.dilate(src, None, iterations=1)] *)
Definition call_dilate (src : loc) : M loc :=
  a ← deref src;
  dst ← alloc (cv2.dilate a);
  log (Dilate src dst);;
  mret dst.

(** [cv2.findContours(image, cv2.RETR_EXTERNAL, cv2.CHAIN_APPROX_SIMPLE)[0]];
    the image is read, not written. *)
Definition call_findContours (image : loc) : M (list Contour) :=
  a ← deref image;
  match a with
  | Msk m => log (FindContours image);; mret (findContours m)
  | Img _ => raise cv2_error
  end.

(** *** [Detection.modify_masks] *)
Definition modify_masks : M unit :=
  src ← getattr mask_pink;
  mask_pink ← call_erode src;
  dst ← call_dilate mask_pink;
  setattr (with_mask_pink dst);;
  src ← getattr mask_green;
  mask_green ← call_erode src;
  dst ← call_dilate mask_green;
  setattr (with_mask_green dst);;
  src ← getattr mask_bomb;
  mask_bomb ← call_erode src;
  dst ← call_dilate mask_bomb;
  setattr (with_mask_bomb dst).

(** *** [Detection.set_masks] *)
Definition set_masks (frame : loc) : M unit :=
  hsv ← call_cvtColor frame;
  m ← call_inRange hsv lower_pink upper_pink;
  setattr (with_mask_pink m);;
  m ← call_inRange hsv lower_green upper_green;
  setattr (with_mask_green m);;
  m ← call_inRange hsv lower_bomb upper_bomb;
  setattr (with_mask_bomb m);;
  modify_masks.

(** *** [Detection.is_bomb_near] *)

Definition rect_center (r : Rect) : Z * Z :=
  let '(x, y, w, h) := r in (x + w `div` 2, y + h `div` 2).

(** The [for bomb_cnt in bomb_contours] loop with its early [return True]. *)
Fixpoint is_bomb_near_loop (object_center : Z * Z)
    (bomb_contours : list Contour) : bool :=
  match bomb_contours with
  | [] => false
  | bomb_cnt :: rest =>
      let '(bomb_x, bomb_y, bomb_w, bomb_h) := cv2.boundingRect bomb_cnt in
      let bomb_center := (bomb_x + bomb_w `div` 2, bomb_y + bomb_h `div` 2) in
      if linalg_norm_lt (bomb_center.1 - object_center.1,
                         bomb_center.2 - object_center.2) 100
      then true
      else is_bomb_near_loop object_center rest
  end.

Definition is_bomb_near (x y w h : Z) : M bool :=
  image ← getattr mask_bomb;
  bomb_contours ← call_findContours image;
  let object_center := (x + w `div` 2, y + h `div` 2) in
  mret (is_bomb_near_loop object_center bomb_contours).

(** *** [Detection.detect_objects] *)

(** The [for cnt in contours] loop; [detected_positions] is the list built
    so far. *)
Fixpoint detect_objects_loop (color_name : string) (contours : list Contour)
    (detected_positions : list (Z * Z)) : M (list (Z * Z)) :=
  match contours with
  | [] => mret detected_positions
  | cnt :: rest =>
      let '(x, y, w, h) := cv2.boundingRect cnt in
      near ← is_bomb_near x y w h;
      if negb near then
        d ← get_self;
        let center_x := x + w `div` 2 in
        let center_y := y + h `div` 2 in
        let screen_x := center_x + start_x d in
        let screen_y := center_y + start_y d + 3 in
        let ten_percent_height := int_tenth (height d) in
        let top_limit := start_y d + ten_percent_height in
        let bottom_limit := start_y d + height d - ten_percent_height in
        if bool_decide (color_name = "green")
           && ((center_y <? top_limit) || (bottom_limit <? center_y))
        then detect_objects_loop color_name rest detected_positions
        else detect_objects_loop color_name rest
               (detected_positions ++ [(screen_x, screen_y)])
      else detect_objects_loop color_name rest detected_positions
  end.

Definition detect_objects (mask : loc) (color_name : string)
  : M (list (Z * Z)) :=
  contours ← call_findContours mask;
  detect_objects_loop color_name contours [].

(** *** [Detection.detect_colors] *)
Definition detect_colors (frame : loc) : M (loc * Positions) :=
  set_masks frame;;
  mask ← getattr mask_pink;
  pink_positions ← detect_objects mask "pink";
  match pink_positions with
  | p :: _ => mret (frame, Single p)
  | [] =>
      mask ← getattr mask_green;
      green_positions ← detect_objects mask "green";
      mret (frame, Many green_positions)
  end.

(** *** Hazard centres extracted once per cycle

    The scheme the specification proposes in place of the re-extraction in
    [is_bomb_near]: the centres of the hazard blobs are computed once, after
    [set_masks], and every candidate is tested against that list. *)

Definition hazard_centers : M (list (Z * Z)) :=
  image ← getattr mask_bomb;
  bomb_contours ← call_findContours image;
  mret ((λ bomb_cnt, rect_center (cv2.boundingRect bomb_cnt))
          <$> bomb_contours).

Definition near_any (bomb_centers : list (Z * Z)) (object_center : Z * Z)
  : bool :=
  existsb (λ bomb_center : Z * Z,
             linalg_norm_lt (bomb_center.1 - object_center.1,
                             bomb_center.2 - object_center.2) 100)
    bomb_centers.

Fixpoint detect_objects_loop_precomputed (d : Detection)
    (bomb_centers : list (Z * Z)) (color_name : string)
    (contours : list Contour) (detected_positions : list (Z * Z))
  : list (Z * Z) :=
  match contours with
  | [] => detected_positions
  | cnt :: rest =>
      let '(x, y, w, h) := cv2.boundingRect cnt in
      let center_x := x + w `div` 2 in
      let center_y := y + h `div` 2 in
      if near_any bomb_centers (center_x, center_y) then
        detect_objects_loop_precomputed d bomb_centers color_name rest
          detected_positions
      else
        let ten_percent_height := int_tenth (height d) in
        let top_limit := start_y d + ten_percent_height in
        let bottom_limit := start_y d + height d - ten_percent_height in
        if bool_decide (color_name = "green")
           && ((center_y <? top_limit) || (bottom_limit <? center_y))
        then detect_objects_loop_precomputed d bomb_centers color_name rest
               detected_positions
        else detect_objects_loop_precomputed d bomb_centers color_name rest
               (detected_positions
                  ++ [(center_x + start_x d, center_y + start_y d + 3)])
  end.

Definition detect_objects_precomputed (bomb_centers : list (Z * Z))
    (mask : loc) (color_name : string) : M (list (Z * Z)) :=
  contours ← call_findContours mask;
  d ← get_self;
  mret (detect_objects_loop_precomputed d bomb_centers color_name contours []).

Definition detect_colors_precomputed (frame : loc) : M (loc * Positions) :=
  set_masks frame;;
  bomb_centers ← hazard_centers;
  mask ← getattr mask_pink;
  pink_positions ← detect_objects_precomputed bomb_centers mask "pink";
  match pink_positions with
  | p :: _ => mret (frame, Single p)
  | [] =>
      mask ← getattr mask_green;
      green_positions ← detect_objects_precomputed bomb_centers mask "green";
      mret (frame, Many green_positions)
  end.

End WithOpenCV.

(** What a caller can see of a run: the value returned, the arrays of the
    store and the attributes of the object; not the log of OpenCV calls. *)
Definition observable {A} (r : result (A * State))
  : result (A * list ndarray * Detection) :=
  match r with
  | Ok (a, s) => Ok (a, heap s, self s)
  | Raise e => Raise e
  end.

(** The Euclidean distance between two integer points. *)
Definition euclidean_distance (p q : Z * Z) : R :=
  sqrt (IZR ((p.1 - q.1) * (p.1 - q.1) + (p.2 - q.2) * (p.2 - q.2))).

(** ** [Coordinate]: loading the monitored rectangle *)

Module Coordinate.

(** What [get_coordinates] reads from outside: the text files that exist,
    each as the option table decouple's [RepositoryEnv] parses it into, and
    the process environment, which [Config] consults first. Paths that
    exist but cannot be opened as text are outside the model. *)
Record World : Type := {
  files : gmap string (gmap string string);
  environ : gmap string string;
}.

(** Python strings over the code points below 256. There [str.isdigit]
    holds of the decimal digits and of the superscripts one, two and
    three, which are digits to the Unicode database but no decimals. *)
Definition is_decimal_char (c : ascii) : bool :=
  let n := N_of_ascii c in ((48 <=? n) && (n <=? 57))%N.

Definition isdigit_char (c : ascii) : bool :=
  let n := N_of_ascii c in
  is_decimal_char c || (n =? 178)%N || (n =? 179)%N || (n =? 185)%N.

Fixpoint all_chars (P : ascii → bool) (s : string) : bool :=
  match s with
  | EmptyString => true
  | String c s' => P c && all_chars P s'
  end.

(** [str.isdigit]: every character is a digit and there is at least one. *)
Definition isdigit (s : string) : bool :=
  match s with
  | EmptyString => false
  | _ => all_chars isdigit_char s
  end.

Fixpoint decimal_value (acc : Z) (s : string) : Z :=
  match s with
  | EmptyString => acc
  | String c s' => decimal_value (10 * acc + (Z.of_N (N_of_ascii c) - 48)) s'
  end.

(** The interpreter's default limit on the digits of a decimal literal. *)
Definition int_max_str_digits : nat := 4300.

(** [int(s)] for a string that passed [isdigit], the only strings the
    program converts: a [ValueError] when a character is no decimal or
    the literal is longer than the interpreter allows. *)
Definition int_ (s : string) : result Z :=
  if all_chars is_decimal_char s && negb (String.length s =? 0)%nat
     && (String.length s <=? int_max_str_digits)%nat
  then Ok (decimal_value 0 s)
  else Raise ValueError.

(** [Coordinate.check_directory]: the warning logged, and the answer. *)
Definition check_directory (w : World) (directory_path : string)
  : list string * bool :=
  match files w !! directory_path with
  | None =>
      (["Make sure window_coordinates.txt file exists in the directory!"%string],
       false)
  | Some _ => ([], true)
  end.

(** [Coordinate.check_coordinates] on the four attributes it reads. *)
Definition check_coordinates (start_x end_x start_y end_y : string)
  : list string * bool :=
  if negb (isdigit start_x) || negb (isdigit end_x)
     || negb (isdigit start_y) || negb (isdigit end_y)
  then (["Make sure all coordinates are numbers!"%string], false)
  else ([], true).

(** [config(option)] of decouple's [Config] over a [RepositoryEnv]. *)
Definition config (w : World) (repository : gmap string string)
    (option : string) : result string :=
  match environ w !! option with
  | Some value => Ok value
  | None =>
      match repository !! option with
      | Some value => Ok value
      | None => Raise UndefinedValueError
      end
  end.

Definition bind_result {A B} (r : result A) (k : A → result B) : result B :=
  match r with
  | Ok a => k a
  | Raise e => Raise e
  end.

(** [Coordinate.get_coordinates]: the warnings logged and the outcome;
    [Ok None] is Python's bare [return]. *)
Definition get_coordinates (w : World) (coordinate_path : string)
  : list string * result (option (Z * Z * Z * Z)) :=
  let '(warned, found) := check_directory w coordinate_path in
  if negb found then (warned, Ok None)
  else
    let repository := default ∅ (files w !! coordinate_path) in
    match
      bind_result (config w repository "start_x") (λ start_x,
      bind_result (config w repository "end_x") (λ end_x,
      bind_result (config w repository "start_y") (λ start_y,
      bind_result (config w repository "end_y") (λ end_y,
      Ok (start_x, end_x, start_y, end_y)))))
    with
    | Raise e => (warned, Raise e)
    | Ok (start_x, end_x, start_y, end_y) =>
        let '(warned', numeric) :=
          check_coordinates start_x end_x start_y end_y in
        if negb numeric then (warned ++ warned', Ok None)
        else
          (warned ++ warned',
           bind_result (int_ start_x) (λ start_x,
           bind_result (int_ end_x) (λ end_x,
           bind_result (int_ start_y) (λ start_y,
           bind_result (int_ end_y) (λ end_y,
           let width := end_x - start_x in
           let height := end_y - start_y in
           Ok (Some (start_x, start_y, width, height)))))))
    end.

End Coordinate.

(** ** The methods as functions of the arrays

    What the runs of the methods compute, written without the store: the
    statements below are phrased with these. *)

Definition value {A} (r : result (A * State)) : result A :=
  match r with
  | Ok (a, _) => Ok a
  | Raise e => Raise e
  end.

Definition logged (cs : list CvCall) (s : State) : State :=
  {| heap := heap s; self := self s; calls := calls s ++ cs |}.

Section Functional.
Context {cv : OpenCV}.

(** The arrays [set_masks] allocates for a frame, in allocation order. *)
Definition thresholded (im : Image) (lowerb upperb : Pixel) : Mask :=
  cv2.inRange (cvtColor_BGR2HSV im) lowerb upperb.

Definition eroded (m : Mask) : Mask := cv2.morph Z.min 255 m.
Definition dilated (m : Mask) : Mask := cv2.morph Z.max 0 m.

Definition pink_of (im : Image) : Mask :=
  dilated (eroded (thresholded im lower_pink upper_pink)).
Definition green_of (im : Image) : Mask :=
  dilated (eroded (thresholded im lower_green upper_green)).
Definition bomb_of (im : Image) : Mask :=
  dilated (eroded (thresholded im lower_bomb upper_bomb)).

Definition arrays_of_set_masks (im : Image) : list ndarray :=
  [ Img (cvtColor_BGR2HSV im);
    Msk (thresholded im lower_pink upper_pink);
    Msk (thresholded im lower_green upper_green);
    Msk (thresholded im lower_bomb upper_bomb);
    Msk (eroded (thresholded im lower_pink upper_pink));
    Msk (pink_of im);
    Msk (eroded (thresholded im lower_green upper_green));
    Msk (green_of im);
    Msk (eroded (thresholded im lower_bomb upper_bomb));
    Msk (bomb_of im) ].

(** The OpenCV calls of [set_masks] on [frame] when the store holds [n]
    arrays, in call order. *)
Definition calls_of_set_masks (frame : loc) (n : nat) : list CvCall :=
  [ CvtColor frame n;
    InRange n lower_pink upper_pink (n + 1);
    InRange n lower_green upper_green (n + 2);
    InRange n lower_bomb upper_bomb (n + 3);
    Erode (n + 1) (n + 4); Dilate (n + 4) (n + 5);
    Erode (n + 2) (n + 6); Dilate (n + 6) (n + 7);
    Erode (n + 3) (n + 8); Dilate (n + 8) (n + 9) ]%nat.

Definition after_set_masks (frame : loc) (im : Image) (s : State) : State :=
  let n := length (heap s) in
  {| heap := heap s ++ arrays_of_set_masks im;
     self := {| start_x := start_x (self s); start_y := start_y (self s);
                height := height (self s); width := width (self s);
                mask_pink := Some (n + 5)%nat;
                mask_green := Some (n + 7)%nat;
                mask_bomb := Some (n + 9)%nat |};
     calls := calls s ++ calls_of_set_masks frame n |}.

(** The answer of [is_bomb_near] for a candidate, given the bomb mask. *)
Definition hazard_near (mb : Mask) (cnt : Contour) : bool :=
  is_bomb_near_loop (rect_center (cv2.boundingRect cnt)) (findContours mb).

(** The test guarding [continue] in [detect_objects]. *)
Definition outside_band (d : Detection) (center_y : Z) : bool :=
  (center_y <? start_y d + int_tenth (height d))
  || (start_y d + height d - int_tenth (height d) <? center_y).

Definition admitted (d : Detection) (mb : Mask) (color_name : string)
    (cnt : Contour) : bool :=
  negb (hazard_near mb cnt)
  && negb (bool_decide (color_name = "green")
           && outside_band d (rect_center (cv2.boundingRect cnt)).2).

Definition detection_of (d : Detection) (cnt : Contour) : Z * Z :=
  let c := rect_center (cv2.boundingRect cnt) in
  (c.1 + start_x d, c.2 + start_y d + 3).

Definition positions (d : Detection) (mb : Mask) (color_name : string)
    (contours : list Contour) : list (Z * Z) :=
  detection_of d <$> filter (λ cnt, admitted d mb color_name cnt) contours.

Definition calls_of_detect_objects (mask lb : loc) (contours : list Contour)
  : list CvCall :=
  FindContours mask :: replicate (length contours) (FindContours lb).

(** The whole cycle as a function of the region and of the frame. *)
Definition pipeline (d : Detection) (im : Image) : Positions :=
  match positions d (bomb_of im) "pink" (findContours (pink_of im)) with
  | p :: _ => Single p
  | [] => Many (positions d (bomb_of im) "green" (findContours (green_of im)))
  end.

Definition calls_of_detect_colors (d : Detection) (im : Image) (n : nat)
  : list CvCall :=
  calls_of_detect_objects (n + 5)%nat (n + 9)%nat (findContours (pink_of im))
  ++ match positions d (bomb_of im) "pink" (findContours (pink_of im)) with
     | _ :: _ => []
     | [] =>
         calls_of_detect_objects (n + 7)%nat (n + 9)%nat
           (findContours (green_of im))
     end.

End Functional.

(** ** A reference instance of the OpenCV parameters

    Used to run the methods on concrete frames: the textbook conversion to
    hue (halved), saturation and value with rounding, and the 8-connected
    components of the foreground in raster order, each as the list of its
    pixels. *)

Module Reference.

Definition rounded_div (a d : Z) : Z := (2 * a + d) `div` (2 * d).

Definition bgr2hsv (p : Pixel) : Pixel :=
  let '(b, g, r) := p in
  let v := Z.max b (Z.max g r) in
  let d := v - Z.min b (Z.min g r) in
  let s := if v =? 0 then 0 else rounded_div (255 * d) v in
  let h :=
    if d =? 0 then 0
    else if v =? r then rounded_div (30 * (g - b)) d
    else if v =? g then 60 + rounded_div (30 * (b - r)) d
    else 120 + rounded_div (30 * (r - g)) d in
  (if h <? 0 then h + 180 else h, s, v).

Definition row_points (r : nat) (row : list Z) : list (Z * Z) :=
  omap (λ o, o) (imap (λ c v, if v =? 0 then None
                        else Some (Z.of_nat c, Z.of_nat r)) row).

Definition foreground_pixels (m : Mask) : list (Z * Z) :=
  mjoin (imap row_points m).

Definition adjacent (p q : Z * Z) : bool :=
  (Z.abs (p.1 - q.1) <=? 1) && (Z.abs (p.2 - q.2) <=? 1).

Definition touches (comp : list (Z * Z)) (q : Z * Z) : bool :=
  existsb (adjacent q) comp.

(** Move into [comp] the points of [rest] that touch it, until none does. *)
Fixpoint grow (fuel : nat) (comp rest : list (Z * Z))
  : list (Z * Z) * list (Z * Z) :=
  match fuel with
  | O => (comp, rest)
  | S fuel' =>
      match filter (λ q, touches comp q) rest with
      | [] => (comp, rest)
      | near =>
          grow fuel' (comp ++ near) (filter (λ q, ¬ touches comp q) rest)
      end
  end.

Fixpoint components (fuel : nat) (pts : list (Z * Z)) : list Contour :=
  match fuel, pts with
  | S fuel', p :: rest =>
      let '(comp, rest') := grow (length rest) [p] rest in
      comp :: components fuel' rest'
  | _, _ => []
  end.

Definition findContours (m : Mask) : list Contour :=
  components (length (foreground_pixels m)) (foreground_pixels m).

#[export] Instance cv : OpenCV := Build_OpenCV bgr2hsv findContours.

End Reference.

(** ** Concrete frames, masks and files *)

Module Scenes.

Definition in_box (r c top left rows cols : nat) : bool :=
  ((top <=? r) && (r <? top + rows) && (left <=? c) && (c <? left + cols))%nat.

Definition paint {A} (rows cols : nat) (colour_at : nat → nat → A)
  : list (list A) :=
  (λ r, colour_at r <$> seq 0 cols) <$> seq 0 rows.

(** Pixels in stored channel order: blue, green, red. *)
Definition hot_pink : Pixel := (180, 105, 255).
Definition lime : Pixel := (0, 255, 0).
Definition grey : Pixel := (128, 128, 128).
Definition black : Pixel := (0, 0, 0).

(** Two pink blobs and a green one on black: 64 rows of 56 pixels, the
    blobs 5 by 5 and centred at (10, 17), (30, 37) and (50, 57). *)
Definition two_pink_one_green : Image :=
  paint 64 56 (λ r c,
    if in_box r c 15 8 5 5 then hot_pink
    else if in_box r c 35 28 5 5 then hot_pink
    else if in_box r c 55 48 5 5 then lime
    else black).

(** Two green blobs and no pink: 86 rows of 30 pixels, the blobs centred
    at (5, 57) and (25, 77). *)
Definition two_green : Image :=
  paint 86 30 (λ r c,
    if in_box r c 55 3 5 5 then lime
    else if in_box r c 75 23 5 5 then lime
    else black).

(** One pink blob centred at (10, 10) and nothing else. *)
Definition one_pink : Image :=
  paint 20 20 (λ r c, if in_box r c 8 8 5 5 then hot_pink else black).

(** A new [Detection] for the region and a store holding just the frame,
    at reference 0. *)
Definition fresh (im : Image) (start_x start_y height width : Z) : State :=
  {| heap := [Img im]; self := init start_x start_y height width;
     calls := [] |}.

(** A mask with one square blob. *)
Definition blob_mask (rows cols top left side : nat) : Mask :=
  paint rows cols (λ r c, if in_box r c top left side side then 255 else 0).

(** A [Detection] over a region of 100 by 100 pixels whose origin is
    [(0, start_y)], after [set_masks]: at reference 0 a mask with one blob
    whose box is (45, [top], 10, 10), at reference 1 an empty bomb mask. *)
Definition green_candidate (start_y : Z) (top : nat) : State :=
  {| heap := [Msk (blob_mask 100 100 top 45 10); Msk (blob_mask 100 100 0 0 0)];
     self := {| start_x := 0; start_y := start_y; height := 100; width := 100;
                mask_pink := None; mask_green := Some 0%nat;
                mask_bomb := Some 1%nat |};
     calls := [] |}.

(** A candidate mask with a blob centred at (10, 10) and a bomb mask with
    a blob centred at ([bomb_x], 10), region origin (300, 200). *)
Definition candidate_and_hazard (bomb_x : nat) : State :=
  {| heap := [Msk (blob_mask 20 170 8 8 5);
              Msk (blob_mask 20 170 8 (bomb_x - 2) 5)];
     self := {| start_x := 300; start_y := 200; height := 20; width := 170;
                mask_pink := Some 0%nat; mask_green := None;
                mask_bomb := Some 1%nat |};
     calls := [] |}.

(** A coordinates file whose end precedes its start on the x axis and
    equals it on the y axis. *)
Definition reversed_file : Coordinate.World :=
  {| Coordinate.files :=
       {[ "window_coordinates.txt"%string :=
            ({[ "start_x" := "10"; "end_x" := "5";
                "start_y" := "20"; "end_y" := "20" ]}%string
             : gmap string string) ]};
     Coordinate.environ := ∅ |}.

(** A well-formed coordinates file. *)
Definition good_file : Coordinate.World :=
  {| Coordinate.files :=
       {[ "window_coordinates.txt"%string :=
            ({[ "start_x" := "100"; "end_x" := "500";
                "start_y" := "200"; "end_y" := "900" ]}%string
             : gmap string string) ]};
     Coordinate.environ := ∅ |}.

(** A file in which [start_x] is the superscript two. *)
Definition superscript_file : Coordinate.World :=
  {| Coordinate.files :=
       {[ "window_coordinates.txt"%string :=
            ({[ "start_x" := String (ascii_of_N 178) EmptyString;
                "end_x" := "5"; "start_y" := "20"; "end_y" := "20" ]}%string
             : gmap string string) ]};
     Coordinate.environ := ∅ |}.

End Scenes.

(** The options [get_coordinates] reads. *)
Definition coordinate_options : list string :=
  ["start_x"; "end_x"; "start_y"; "end_y"]%string.


(** ** [Capture] and the polling loop of [main_clicker.py] *)

(** A pixel of a screenshot: blue, green, red, alpha. *)
Definition BGRA : Type := Z * Z * Z * Z.

(** The dictionary [capture_screen_region] hands to [sct.grab]. *)
Record Monitor : Type := {
  mon_top : Z;
  mon_left : Z;
  mon_width : Z;
  mon_height : Z;
}.

(** mss: what is on the screen when a shot is taken, and [sct.grab], which
    returns the rows of the rectangle asked for. A grab that fails is
    outside the model. *)
Class Mss : Type := {
  Screen : Type;
  grab : Screen → Monitor → list (list BGRA);
}.


(** [cv2.cvtColor(frame, cv2.COLOR_BGRA2BGR)]: the alpha channel is
    dropped. *)
Definition cvtColor_BGRA2BGR (frame : list (list BGRA)) : Image :=
  (λ row : list BGRA, (λ '(b, g, r, _), (b, g, r)) <$> row) <$> frame.

(** [Capture.capture_screen_region] *)
Definition capture_screen_region `{Mss} (scr : Screen)
    (start_x start_y height width : Z) : Image :=
  let region := {| mon_top := start_y; mon_left := start_x;
                   mon_width := width; mon_height := height |} in
  let screenshot := grab scr region in
  cvtColor_BGRA2BGR screenshot.

(** How a function of [main_clicker.py] ends: it returns, it leaves the
    program through [sys.exit()], or an exception escapes. *)
Inductive outcome (A : Type) : Type :=
  | Returns (a : A)
  | Exits
  | Raises (e : exn).
Arguments Returns {A} a.
Arguments Exits {A}.
Arguments Raises {A} e.

(** The keys [check_keyboard_input] polls. *)
Record Keys : Type := {
  s_pressed : bool;
  p_pressed : bool;
  ctrl_c_pressed : bool;
}.

(** What the mouse driver is asked to do. *)
Inductive MouseEvent : Type :=
  | Move (x y : Z)   (* [mouse.move(x, y, absolute=True, duration=0)] *)
  | Click.           (* [mouse.click()] *)

(** What the loop acts on: the arrays alive, the OpenCV calls made, the
    mouse events sent and the lines logged. *)
Record Desk : Type := {
  store : list ndarray;
  cv_calls : list CvCall;
  mouse : list MouseEvent;
  console : list string;
}.

(** The variables [handle_detection] closes over. *)
Record Loop : Type := {
  running : bool;
  was_running : bool;
  was_paused : bool;
}.

Definition initial_loop : Loop :=
  {| running := false; was_running := false; was_paused := true |}.

(** [main_clicker.get_coordinates]: the warnings logged and the outcome. *)
Definition main_get_coordinates (w : Coordinate.World)
  : list string * outcome (Z * Z * Z * Z) :=
  let '(warned, r) :=
    Coordinate.get_coordinates w "window_coordinates.txt" in
  match r with
  | Raise e => (warned, Raises e)
  | Ok None => (warned, Exits)
  | Ok (Some coordinates) => (warned, Returns coordinates)
  end.

(** [main_clicker.check_keyboard_input] *)
Definition check_keyboard_input (keyboard : Keys) (running : bool)
  : outcome bool :=
  if s_pressed keyboard then Returns true
  else if p_pressed keyboard then Returns false
  else if ctrl_c_pressed keyboard then Exits
  else Returns running.

(** [main_clicker.log_state_transition]: the line logged, if any, and the
    pair returned. *)
Definition log_state_transition (running was_running was_paused : bool)
  : list string * (bool * bool) :=
  if running && negb was_running
  then (["Started Bot..."%string], (true, false))
  else if negb running && negb was_paused
  then (["Paused Bot..."%string], (false, true))
  else ([], (was_running, was_paused)).

(** [main_clicker.handle_click_positions] on the values [detect_colors]
    returns: a pair, or a list of pairs. *)
Definition handle_click_positions (click_positions : Positions)
  : list MouseEvent :=
  match click_positions with
  | Single (x, y) => [Move x y; Click]
  | Many [] => []
  | Many l => l ≫= (λ position, [Move position.1 position.2; Click])
  end.

(** Python's truth value of what [detect_colors] returns. *)
Definition truthy (click_positions : Positions) : bool :=
  match click_positions with
  | Single _ => true
  | Many [] => false
  | Many _ => true
  end.

Section MainLoop.
Context {cv : OpenCV} {mss : Mss}.

(** [main_clicker.perform_detection]: the frame is a new array, the
    [Detection] object a new one each time. *)
Definition perform_detection (scr : Screen) (start_x start_y width height : Z)
    (d : Desk) : outcome Desk :=
  let frame := capture_screen_region scr start_x start_y height width in
  let s := {| heap := store d ++ [Img frame];
              self := init start_x start_y height width;
              calls := cv_calls d |} in
  match detect_colors (length (store d)) s with
  | Raise e => Raises e
  | Ok ((processed_frame, click_positions), s') =>
      Returns
        {| store := heap s'; cv_calls := calls s';
           mouse := mouse d ++ (if truthy click_positions
                                then handle_click_positions click_positions
                                else []);
           console := console d |}
  end.

(** [detection_loop], the closure [handle_detection] returns, on one
    firing of the timer. *)
Definition detection_loop (start_x start_y width height : Z)
    (keyboard : Keys) (scr : Screen) (l : Loop) (d : Desk)
  : outcome (Loop * Desk) :=
  match check_keyboard_input keyboard (running l) with
  | Exits => Exits
  | Raises e => Raises e
  | Returns running' =>
      let '(logged_lines, (was_running', was_paused')) :=
        log_state_transition running' (was_running l) (was_paused l) in
      let l' := {| running := running'; was_running := was_running';
                   was_paused := was_paused' |} in
      let d' := {| store := store d; cv_calls := cv_calls d;
                   mouse := mouse d;
                   console := console d ++ logged_lines |} in
      if running' then
        match perform_detection scr start_x start_y width height d' with
        | Returns d'' => Returns (l', d'')
        | Exits => Exits
        | Raises e => Raises e
        end
      else Returns (l', d')
  end.

(** The timer firing [detection_loop] once per input, until the program
    leaves. *)
Fixpoint run_ticks (start_x start_y width height : Z)
    (inputs : list (Keys * Screen)) (l : Loop) (d : Desk)
  : outcome (Loop * Desk) :=
  match inputs with
  | [] => Returns (l, d)
  | (keyboard, scr) :: rest =>
      match detection_loop start_x start_y width height keyboard scr l d with
      | Returns (l', d') => run_ticks start_x start_y width height rest l' d'
      | Exits => Exits
      | Raises e => Raises e
      end
  end.

End MainLoop.

(** The positions in a value [detect_colors] returns, in order. *)
Definition clicks_of (click_positions : Positions) : list (Z * Z) :=
  match click_positions with
  | Single p => [p]
  | Many l => l
  end.

(** The keys that make [check_keyboard_input] leave the program. *)
Definition exit_keys (keyboard : Keys) : Prop :=
  s_pressed keyboard = false ∧ p_pressed keyboard = false
  ∧ ctrl_c_pressed keyboard = true.

(** The lines [log_state_transition] can log, in the order they alternate. *)
Fixpoint alternation (started : bool) (n : nat) : list string :=
  match n with
  | O => []
  | S n' =>
      (if started then "Paused Bot..." else "Started Bot...")%string
      :: alternation (negb started) n'
  end.

(** ** [get_logger] of [logger.py] *)

Module Logger.

Inductive Formatter : Type :=
  | ColoredFormatter
  | OtherFormatter.

Inductive Level : Type :=
  | NOTSET
  | DEBUG
  | OtherLevel.

(** The logger named BlumClicker and what [hasHandlers] looks at above
    it: the handlers of the root logger, reached when the logger
    propagates. A handler is given by its formatter. *)
Record Logging : Type := {
  handlers : list Formatter;
  level : Level;
  propagate : bool;
  root_handlers : list Formatter;
}.

(** [logger.hasHandlers()] *)
Definition hasHandlers (st : Logging) : bool :=
  match handlers st with
  | _ :: _ => true
  | [] =>
      if propagate st
      then match root_handlers st with _ :: _ => true | [] => false end
      else false
  end.

(** [get_logger]: the state of the logging module afterwards. *)
Definition get_logger (st : Logging) : Logging :=
  if negb (hasHandlers st)
  then {| handlers := handlers st ++ [ColoredFormatter];
          level := DEBUG;
          propagate := propagate st;
          root_handlers := root_handlers st |}
  else st.

End Logger.

(** A screen as the colour of each of its points, and the grab that reads
    the rectangle row by row: an instance of [Mss] to run the loop on. *)
Module ReferenceScreen.

Definition grab (scr : Z → Z → BGRA) (region : Monitor) : list (list BGRA) :=
  (λ r, (λ c, scr (mon_left region + Z.of_nat c) (mon_top region + Z.of_nat r))
          <$> seq 0 (Z.to_nat (mon_width region)))
  <$> seq 0 (Z.to_nat (mon_height region)).

#[export] Instance mss : Mss := Build_Mss (Z → Z → BGRA) grab.

(** A black screen with a pink square of side 5 whose corner is at
    [(x, y)]. *)
Definition pink_square_at (x y : Z) : Z → Z → BGRA := λ px py,
  if bool_decide (x ≤ px < x + 5 ∧ y ≤ py < y + 5)
  then (180, 105, 255, 255) else (0, 0, 0, 255).

Definition no_key : Keys :=
  {| s_pressed := false; p_pressed := false; ctrl_c_pressed := false |}.
Definition key_s : Keys :=
  {| s_pressed := true; p_pressed := false; ctrl_c_pressed := false |}.
Definition key_p : Keys :=
  {| s_pressed := false; p_pressed := true; ctrl_c_pressed := false |}.

Definition empty_desk : Desk :=
  {| store := []; cv_calls := []; mouse := []; console := [] |}.

End ReferenceScreen.

(** Further concrete inputs. *)
Module Inputs.

(** A coordinates file without [end_y]. *)
Definition incomplete_file : Coordinate.World :=
  {| Coordinate.files :=
       {[ "window_coordinates.txt"%string :=
            ({[ "start_x" := "10"; "end_x" := "50"; "start_y" := "20" ]}%string
             : gmap string string) ]};
     Coordinate.environ := ∅ |}.

(** The options of [Scenes.good_file], of [Scenes.superscript_file] and of
    [incomplete_file]. *)
Definition good_options : gmap string string :=
  {[ "start_x" := "100"; "end_x" := "500";
     "start_y" := "200"; "end_y" := "900" ]}%string.
Definition superscript_options : gmap string string :=
  {[ "start_x" := String (ascii_of_N 178) EmptyString;
     "end_x" := "5"; "start_y" := "20"; "end_y" := "20" ]}%string.
Definition incomplete_options : gmap string string :=
  {[ "start_x" := "10"; "end_x" := "50"; "start_y" := "20" ]}%string.

(** The timer firing three times on a screen with a pink square whose
    corner is at (108, 208): 's' held, then nothing, then 'p' held. *)
Definition start_wait_pause
  : list (Keys * (Z → Z → BGRA)) :=
  [ (ReferenceScreen.key_s, ReferenceScreen.pink_square_at 108 208);
    (ReferenceScreen.no_key, ReferenceScreen.pink_square_at 108 208);
    (ReferenceScreen.key_p, ReferenceScreen.pink_square_at 108 208) ].

(** Two firings during which 's' is never held. *)
Definition never_started : list (Keys * (Z → Z → BGRA)) :=
  [ (ReferenceScreen.no_key, ReferenceScreen.pink_square_at 108 208);
    (ReferenceScreen.key_p, ReferenceScreen.pink_square_at 108 208) ].

End Inputs.

(** ** Facts about the OpenCV functions *)

Section ArrayFacts.


















End ArrayFacts.

(** ** Running the methods *)

Lemma lookup_snoc_new {A} (l : list A) x : (l ++ [x]) !! length l = Some x.
Proof. by apply list_lookup_middle. Qed.

Lemma lookup_snoc_old {A} (l : list A) x i y :
  l !! i = Some y → (l ++ [x]) !! i = Some y.
Proof. apply lookup_app_l_Some. Qed.

Ltac heap_lookup :=
  repeat first [ eassumption | apply lookup_snoc_new | apply lookup_snoc_old ].

Lemma bind_Ok {A B} (m : M A) (k : A → M B) s a s' :
  m s = Ok (a, s') → (m ≫= k) s = k a s'.
Proof. intros H. unfold mbind, M_bind. by rewrite H. Qed.

Lemma bind_Raise {A B} (m : M A) (k : A → M B) s e :
  m s = Raise e → (m ≫= k) s = Raise e.
Proof. intros H. unfold mbind, M_bind. by rewrite H. Qed.

Section Runs.
Context {cv : OpenCV}.

Lemma call_cvtColor_run s src im :
  heap s !! src = Some (Img im) →
  call_cvtColor src s =
    Ok (length (heap s),
        {| heap := heap s ++ [Img (cvtColor_BGR2HSV im)]; self := self s;
           calls := calls s ++ [CvtColor src (length (heap s))] |}).
Proof.
  intros H. unfold call_cvtColor, deref, mbind, M_bind. by rewrite H.
Qed.

Lemma call_inRange_run s src im lowerb upperb :
  heap s !! src = Some (Img im) →
  call_inRange src lowerb upperb s =
    Ok (length (heap s),
        {| heap := heap s ++ [Msk (cv2.inRange im lowerb upperb)];
           self := self s;
           calls := calls s ++ [InRange src lowerb upperb (length (heap s))] |}).
Proof.
  intros H. unfold call_inRange, deref, mbind, M_bind. by rewrite H.
Qed.

Lemma call_erode_run s src a :
  heap s !! src = Some a →
  call_erode src s =
    Ok (length (heap s),
        {| heap := heap s ++ [cv2.erode a]; self := self s;
           calls := calls s ++ [Erode src (length (heap s))] |}).
Proof.
  intros H. unfold call_erode, deref, mbind, M_bind. by rewrite H.
Qed.

Lemma call_dilate_run s src a :
  heap s !! src = Some a →
  call_dilate src s =
    Ok (length (heap s),
        {| heap := heap s ++ [cv2.dilate a]; self := self s;
           calls := calls s ++ [Dilate src (length (heap s))] |}).
Proof.
  intros H. unfold call_dilate, deref, mbind, M_bind. by rewrite H.
Qed.

Lemma call_findContours_run s image m :
  heap s !! image = Some (Msk m) →
  call_findContours image s =
    Ok (findContours m,
        {| heap := heap s; self := self s;
           calls := calls s ++ [FindContours image] |}).
Proof.
  intros H. unfold call_findContours, deref, mbind, M_bind. by rewrite H.
Qed.

Ltac step :=
  first
    [ erewrite bind_Ok by
        (first [ apply call_cvtColor_run | apply call_inRange_run
               | apply call_erode_run | apply call_dilate_run
               | apply call_findContours_run ]; simpl; heap_lookup)
    | erewrite bind_Ok by (unfold setattr, getattr; simpl; reflexivity) ];
  simpl.

Lemma set_masks_run s frame im :
  heap s !! frame = Some (Img im) →
  set_masks frame s = Ok ((), after_set_masks frame im s).
Proof.
  intros H. unfold set_masks, modify_masks.
  do 18 step.
  unfold setattr, after_set_masks, arrays_of_set_masks, calls_of_set_masks,
    pink_of, green_of, bomb_of, eroded, dilated, thresholded,
    with_mask_pink, with_mask_green, with_mask_bomb.
  simpl. rewrite !length_app. simpl. rewrite <- !app_assoc. simpl.
  do 2 f_equal. f_equal; repeat (f_equal; try lia).
Qed.

Lemma logged_logged cs1 cs2 s :
  logged cs2 (logged cs1 s) = logged (cs1 ++ cs2) s.
Proof. unfold logged. simpl. by rewrite app_assoc. Qed.

Lemma is_bomb_near_run s lb mb x y w h :
  mask_bomb (self s) = Some lb →
  heap s !! lb = Some (Msk mb) →
  is_bomb_near x y w h s =
    Ok (is_bomb_near_loop (x + w `div` 2, y + h `div` 2) (findContours mb),
        logged [FindContours lb] s).
Proof.
  intros Hattr Hheap. unfold is_bomb_near.
  erewrite bind_Ok by (unfold getattr; rewrite Hattr; reflexivity).
  erewrite bind_Ok by (apply call_findContours_run; eassumption).
  reflexivity.
Qed.

Lemma positions_cons d mb color_name cnt rest :
  positions d mb color_name (cnt :: rest) =
    if admitted d mb color_name cnt
    then detection_of d cnt :: positions d mb color_name rest
    else positions d mb color_name rest.
Proof.
  unfold positions. rewrite filter_cons.
  destruct (admitted d mb color_name cnt); by case_decide.
Qed.

Lemma detect_objects_loop_run color_name lb mb contours :
  ∀ acc s,
    mask_bomb (self s) = Some lb →
    heap s !! lb = Some (Msk mb) →
    detect_objects_loop color_name contours acc s =
      Ok (acc ++ positions (self s) mb color_name contours,
          logged (replicate (length contours) (FindContours lb)) s).
Proof.
  induction contours as [|cnt rest IH]; intros acc s Hattr Hheap.
  - simpl. unfold mret, M_ret, positions, logged. simpl.
    rewrite !app_nil_r. by destruct s.
  - simpl. rewrite positions_cons.
    unfold admitted, hazard_near, detection_of, rect_center.
    destruct (cv2.boundingRect cnt) as [[[x y] w] h] eqn:Hrect.
    erewrite bind_Ok by (eapply is_bomb_near_run; eassumption).
    destruct (is_bomb_near_loop _ (findContours mb)) eqn:Hnear; simpl.
    + rewrite (IH acc (logged [FindContours lb] s)) by done.
      rewrite logged_logged. reflexivity.
    + erewrite bind_Ok by reflexivity. simpl.
      fold (outside_band (self s) (y + h `div` 2)).
      destruct (bool_decide (color_name = "green")
                && outside_band (self s) (y + h `div` 2)) eqn:Hband; simpl.
      * rewrite (IH acc (logged [FindContours lb] s)) by done.
        rewrite logged_logged. reflexivity.
      * rewrite (IH _ (logged [FindContours lb] s)) by done.
        rewrite logged_logged, <- app_assoc. reflexivity.
Qed.

Lemma detect_objects_run s mask m lb mb color_name :
  heap s !! mask = Some (Msk m) →
  mask_bomb (self s) = Some lb →
  heap s !! lb = Some (Msk mb) →
  detect_objects mask color_name s =
    Ok (positions (self s) mb color_name (findContours m),
        logged (calls_of_detect_objects mask lb (findContours m)) s).
Proof.
  intros Hmask Hattr Hheap. unfold detect_objects.
  erewrite bind_Ok by (apply call_findContours_run; eassumption).
  fold (logged [FindContours mask] s).
  rewrite (detect_objects_loop_run _ lb mb) by done.
  by rewrite logged_logged.
Qed.

Lemma positions_region d d' mb color_name contours :
  start_x d = start_x d' → start_y d = start_y d' → height d = height d' →
  positions d mb color_name contours = positions d' mb color_name contours.
Proof.
  intros Hx Hy Hh. unfold positions, admitted, outside_band, detection_of.
  by rewrite Hx, Hy, Hh.
Qed.

Lemma lookup_after_set_masks frame im s k :
  heap (after_set_masks frame im s) !! (length (heap s) + k)%nat =
    arrays_of_set_masks im !! k.
Proof.
  unfold after_set_masks. simpl heap.
  rewrite lookup_app_r by lia. f_equal. lia.
Qed.

Lemma after_set_masks_pink frame im s :
  heap (after_set_masks frame im s) !! (length (heap s) + 5)%nat =
    Some (Msk (pink_of im)).
Proof. exact (lookup_after_set_masks frame im s 5). Qed.

Lemma after_set_masks_green frame im s :
  heap (after_set_masks frame im s) !! (length (heap s) + 7)%nat =
    Some (Msk (green_of im)).
Proof. exact (lookup_after_set_masks frame im s 7). Qed.

Lemma after_set_masks_bomb frame im s :
  heap (after_set_masks frame im s) !! (length (heap s) + 9)%nat =
    Some (Msk (bomb_of im)).
Proof. exact (lookup_after_set_masks frame im s 9). Qed.


Lemma detect_colors_run s frame im :
  heap s !! frame = Some (Img im) →
  detect_colors frame s =
    Ok ((frame, pipeline (self s) im),
        logged (calls_of_detect_colors (self s) im (length (heap s)))
          (after_set_masks frame im s)).
Proof.
  intros Hframe. unfold detect_colors.
  erewrite bind_Ok by (apply set_masks_run; eassumption).
  erewrite bind_Ok by reflexivity.
  pose proof (after_set_masks_pink frame im s) as Hp.
  pose proof (after_set_masks_green frame im s) as Hg.
  pose proof (after_set_masks_bomb frame im s) as Hb.
  set (s1 := after_set_masks frame im s) in *.
  erewrite bind_Ok by (eapply detect_objects_run; [exact Hp|reflexivity|exact Hb]).
  unfold pipeline, calls_of_detect_colors.
  rewrite (positions_region (self s1) (self s)) by reflexivity.
  destruct (positions (self s) (bomb_of im) "pink" _) as [|p pink] eqn:Hpink.
  - erewrite bind_Ok by reflexivity.
    erewrite bind_Ok by
      (eapply detect_objects_run; [exact Hg|reflexivity|exact Hb]).
    unfold mret, M_ret. rewrite logged_logged.
    by rewrite (positions_region (self _) (self s)) by reflexivity.
  - unfold mret, M_ret. by rewrite app_nil_r.
Qed.

End Runs.

(** ** Distances, bounding boxes and the hazard test *)

Lemma linalg_norm_lt_euclidean (p q : Z * Z) (r : Z) :
  0 ≤ r →
  linalg_norm_lt (p.1 - q.1, p.2 - q.2) r = true
  ↔ (euclidean_distance p q < IZR r)%R.
Proof.
  intros Hr. unfold linalg_norm_lt, euclidean_distance. simpl.
  set (n := (p.1 - q.1) * (p.1 - q.1) + (p.2 - q.2) * (p.2 - q.2)).
  assert (Hn : 0 ≤ n).
  { pose proof (Z.square_nonneg (p.1 - q.1)).
    pose proof (Z.square_nonneg (p.2 - q.2)). unfold n. lia. }
  assert (Hsq : sqrt (IZR (r * r)) = IZR r).
  { rewrite mult_IZR. apply sqrt_square. by apply IZR_le. }
  rewrite Z.ltb_lt, <- Hsq. split.
  - intros Hlt. apply sqrt_lt_1; [apply IZR_le; lia..|by apply IZR_lt].
  - intros Hlt. apply lt_IZR. apply sqrt_lt_0; [apply IZR_le; lia..|done].
Qed.

Lemma foldr_min_le (a : Z) (l : list Z) : foldr Z.min a l ≤ a.
Proof. induction l; simpl; lia. Qed.

Lemma foldr_max_ge (a : Z) (l : list Z) : a ≤ foldr Z.max a l.
Proof. induction l; simpl; lia. Qed.

Lemma foldr_min_lower (lo a : Z) (l : list Z) :
  lo ≤ a → Forall (λ v, lo ≤ v) l → lo ≤ foldr Z.min a l.
Proof. intros Ha. induction 1; simpl; lia. Qed.

Lemma foldr_max_upper (hi a : Z) (l : list Z) :
  a < hi → Forall (λ v, v < hi) l → foldr Z.max a l < hi.
Proof. intros Ha. induction 1; simpl; lia. Qed.

(** The bounding box of a non-empty set of points of a [W] by [H] grid
    lies in the grid and is at least one pixel wide and high. *)
Lemma boundingRect_inside (cnt : Contour) (W H : Z) :
  cnt ≠ [] →
  Forall (λ p : Z * Z, 0 ≤ p.1 < W ∧ 0 ≤ p.2 < H) cnt →
  ∃ x y w h,
    cv2.boundingRect cnt = (x, y, w, h)
    ∧ 0 ≤ x ∧ 1 ≤ w ∧ x + w ≤ W ∧ 0 ≤ y ∧ 1 ≤ h ∧ y + h ≤ H.
Proof.
  intros Hne Hall. destruct cnt as [|p ps]; [done|]. clear Hne.
  apply Forall_cons in Hall as [Hp Hps]. simpl. eexists _, _, _, _.
  split; [reflexivity|].
  pose proof (foldr_min_le p.1 (fst <$> ps)).
  pose proof (foldr_max_ge p.1 (fst <$> ps)).
  pose proof (foldr_min_le p.2 (snd <$> ps)).
  pose proof (foldr_max_ge p.2 (snd <$> ps)).
  assert (0 ≤ foldr Z.min p.1 (fst <$> ps)).
  { apply foldr_min_lower; [lia|]. apply Forall_fmap.
    eapply Forall_impl; [exact Hps|]. simpl. lia. }
  assert (0 ≤ foldr Z.min p.2 (snd <$> ps)).
  { apply foldr_min_lower; [lia|]. apply Forall_fmap.
    eapply Forall_impl; [exact Hps|]. simpl. lia. }
  assert (foldr Z.max p.1 (fst <$> ps) < W).
  { apply foldr_max_upper; [lia|]. apply Forall_fmap.
    eapply Forall_impl; [exact Hps|]. simpl. lia. }
  assert (foldr Z.max p.2 (snd <$> ps) < H).
  { apply foldr_max_upper; [lia|]. apply Forall_fmap.
    eapply Forall_impl; [exact Hps|]. simpl. lia. }
  lia.
Qed.

(** A foreground point of a mask of [H] rows of [W] pixels is in range. *)
Lemma foreground_inside (m : Mask) (W H : Z) (p : Z * Z) :
  Z.of_nat (length m) = H →
  Forall (λ row, Z.of_nat (length row) = W) m →
  foreground m p → 0 ≤ p.1 < W ∧ 0 ≤ p.2 < H.
Proof.
  intros HH HW (v & Hv & _). unfold at_ in Hv.
  case_bool_decide as Hpos; [|done].
  apply bind_Some in Hv as (row & Hrow & Hv).
  pose proof (lookup_lt_Some _ _ _ Hrow).
  pose proof (lookup_lt_Some _ _ _ Hv).
  rewrite Forall_forall in HW.
  pose proof (HW row (list_elem_of_lookup_2 _ _ _ Hrow)). lia.
Qed.

Lemma filter_none {A} (P : A → Prop) `{∀ x, Decision (P x)} (l : list A) :
  (∀ x, x ∈ l → ¬ P x) → filter P l = [].
Proof.
  induction l as [|x l IH]; intros Hl; [done|].
  rewrite filter_cons, decide_False by (apply Hl; left).
  apply IH. intros y Hy. apply Hl. by right.
Qed.

Section ExtractorFacts.
Context {cv : OpenCV}.

Lemma is_bomb_near_loop_true (object_center : Z * Z) (bomb_contours : list Contour) :
  is_bomb_near_loop object_center bomb_contours = true
  ↔ ∃ c, c ∈ bomb_contours
         ∧ linalg_norm_lt
             ((rect_center (cv2.boundingRect c)).1 - object_center.1,
              (rect_center (cv2.boundingRect c)).2 - object_center.2) 100
           = true.
Proof.
  induction bomb_contours as [|c rest IH]; simpl.
  - split; [done|]. intros (c & Hc & _). by apply elem_of_nil in Hc.
  - unfold rect_center at 1 2.
    destruct (cv2.boundingRect c) as [[[bx by_] bw] bh] eqn:Hrect. simpl.
    destruct (linalg_norm_lt _ 100) eqn:Hnear.
    + split; [|done]. intros _. exists c. split; [left|].
      unfold rect_center. by rewrite Hrect.
    + rewrite IH. split.
      * intros (c' & Hc' & Hlt). exists c'. split; [by right|done].
      * intros (c' & Hc' & Hlt). apply elem_of_cons in Hc' as [->|Hc'].
        -- unfold rect_center in Hlt. rewrite Hrect in Hlt. simpl in Hlt.
           congruence.
        -- eauto.
Qed.

Lemma near_any_loop (object_center : Z * Z) (bomb_contours : list Contour) :
  near_any ((λ c, rect_center (cv2.boundingRect c)) <$> bomb_contours)
    object_center
  = is_bomb_near_loop object_center bomb_contours.
Proof.
  induction bomb_contours as [|c rest IH]; [done|].
  unfold near_any in *. rewrite fmap_cons. cbn [existsb is_bomb_near_loop].
  rewrite IH. unfold rect_center.
  destruct (cv2.boundingRect c) as [[[bx by_] bw] bh]. simpl.
  by destruct (linalg_norm_lt _ 100).
Qed.

Lemma detect_objects_loop_precomputed_positions d mb color_name contours :
  ∀ acc,
    detect_objects_loop_precomputed d
      ((λ c, rect_center (cv2.boundingRect c)) <$> findContours mb)
      color_name contours acc
    = acc ++ positions d mb color_name contours.
Proof.
  induction contours as [|cnt rest IH]; intros acc.
  - unfold positions. simpl. by rewrite app_nil_r.
  - simpl. rewrite positions_cons.
    unfold admitted, hazard_near, detection_of, rect_center.
    destruct (cv2.boundingRect cnt) as [[[x y] w] h] eqn:Hrect.
    rewrite near_any_loop.
    destruct (is_bomb_near_loop _ (findContours mb)); simpl; [apply IH|].
    fold (outside_band d (y + h `div` 2)).
    destruct (bool_decide (color_name = "green")
              && outside_band d (y + h `div` 2)); simpl; [apply IH|].
    rewrite IH, <- app_assoc. reflexivity.
Qed.

Lemma set_masks_fails s frame :
  (∀ im, heap s !! frame ≠ Some (Img im)) →
  ∃ e, set_masks frame s = Raise e.
Proof.
  intros Hno.
  assert (∃ e, call_cvtColor frame s = Raise e) as [e He].
  { unfold call_cvtColor, deref, mbind, M_bind.
    destruct (heap s !! frame) as [[im|m]|] eqn:Hframe; simpl; eauto.
    by destruct (Hno im). }
  exists e. unfold set_masks. by apply bind_Raise.
Qed.

Lemma hazard_centers_run s lb mb :
  mask_bomb (self s) = Some lb →
  heap s !! lb = Some (Msk mb) →
  hazard_centers s =
    Ok ((λ c, rect_center (cv2.boundingRect c)) <$> findContours mb,
        logged [FindContours lb] s).
Proof.
  intros Hattr Hheap. unfold hazard_centers.
  erewrite bind_Ok by (unfold getattr; rewrite Hattr; reflexivity).
  erewrite bind_Ok by (apply call_findContours_run; eassumption).
  reflexivity.
Qed.

Lemma detect_objects_precomputed_run s mask m mb color_name :
  heap s !! mask = Some (Msk m) →
  detect_objects_precomputed
    ((λ c, rect_center (cv2.boundingRect c)) <$> findContours mb)
    mask color_name s =
    Ok (positions (self s) mb color_name (findContours m),
        logged [FindContours mask] s).
Proof.
  intros Hmask. unfold detect_objects_precomputed.
  erewrite bind_Ok by (apply call_findContours_run; eassumption).
  erewrite bind_Ok by reflexivity.
  unfold mret, M_ret.
  by rewrite detect_objects_loop_precomputed_positions.
Qed.

Lemma positions_survivors d mb color_name contours :
  positions d mb color_name contours =
    detection_of d <$>
      filter (λ cnt, ¬ (color_name = "green"
                        ∧ outside_band d (rect_center (cv2.boundingRect cnt)).2))
        (filter (λ cnt, hazard_near mb cnt = false) contours).
Proof.
  unfold positions. f_equal. rewrite list_filter_filter.
  apply list_filter_iff. intros cnt. unfold admitted.
  destruct (hazard_near mb cnt); simpl; [intuition congruence|].
  destruct (outside_band d _); simpl; rewrite ?andb_false_r, ?andb_true_r.
  - rewrite Is_true_true, negb_true_iff, bool_decide_eq_false.
    intuition congruence.
  - simpl. intuition congruence.
Qed.

End ExtractorFacts.

(** ** The reference contour finder meets the contract *)

Module ReferenceFacts.
Import Reference.

Lemma grow_spec fuel : ∀ comp rest comp' rest',
  grow fuel comp rest = (comp', rest') →
  comp ≠ [] →
  comp' ≠ [] ∧ (∀ q, q ∈ comp' → q ∈ comp ∨ q ∈ rest)
  ∧ (∀ q, q ∈ rest' → q ∈ rest).
Proof.
  induction fuel as [|fuel IH]; intros comp rest comp' rest' Hgrow Hne.
  - simpl in Hgrow. injection Hgrow as <- <-. auto.
  - simpl in Hgrow.
    destruct (filter (λ q, touches comp q) rest) as [|n near] eqn:Hnear.
    + injection Hgrow as <- <-. auto.
    + apply IH in Hgrow as (Hne' & Hcomp & Hrest).
      * split; [done|]. split.
        -- intros q Hq. apply Hcomp in Hq as [Hq|Hq].
           ++ apply elem_of_app in Hq as [Hq|Hq]; [by left|right].
              rewrite <- Hnear in Hq. by apply list_elem_of_filter in Hq as [_ ?].
           ++ right. by apply list_elem_of_filter in Hq as [_ ?].
        -- intros q Hq. apply Hrest in Hq.
           by apply list_elem_of_filter in Hq as [_ ?].
      * by destruct comp.
Qed.

Lemma components_spec fuel : ∀ pts c,
  c ∈ components fuel pts → c ≠ [] ∧ ∀ q, q ∈ c → q ∈ pts.
Proof.
  induction fuel as [|fuel IH]; intros pts c Hc.
  - by apply elem_of_nil in Hc.
  - destruct pts as [|p rest]; [by apply elem_of_nil in Hc|].
    simpl in Hc.
    destruct (grow (length rest) [p] rest) as [comp rest'] eqn:Hgrow.
    apply grow_spec in Hgrow as (Hne & Hcomp & Hrest); [|done].
    apply elem_of_cons in Hc as [->|Hc].
    + split; [done|]. intros q Hq. apply Hcomp in Hq as [Hq|Hq].
      * apply list_elem_of_singleton in Hq as ->. left.
      * by right.
    + apply IH in Hc as [Hne' Hsub]. split; [done|].
      intros q Hq. right. auto.
Qed.

Lemma foreground_pixels_spec m q :
  q ∈ foreground_pixels m → foreground m q.
Proof.
  unfold foreground_pixels. rewrite list_elem_of_join.
  intros (pts & Hq & Hpts).
  apply elem_of_lookup_imap_1 in Hpts as (r & row & -> & Hrow).
  unfold row_points in Hq. apply list_elem_of_omap in Hq as (o & Ho & Hq).
  simpl in Hq. subst o.
  apply elem_of_lookup_imap_1 in Ho as (c & v & Hv & Hc).
  destruct (Z.eqb_spec v 0) as [|Hne]; [done|]. injection Hv as ->.
  exists v. split; [|done]. unfold at_. simpl.
  rewrite bool_decide_true by lia. by rewrite !Nat2Z.id, Hrow.
Qed.

Lemma contract : contours_on_foreground cv.
Proof.
  intros m c Hc. apply components_spec in Hc as [Hne Hsub].
  split; [done|]. apply Forall_forall. intros q Hq.
  by apply foreground_pixels_spec, Hsub.
Qed.

End ReferenceFacts.

(** ** The claims of the specification *)

Section Claims.
Context {cv : OpenCV}.





(** C3 — Hazard Proximity Filter. With the bomb mask set, [is_bomb_near]
    answers true exactly when the bounding-box centre of some contour of the
    bomb mask lies at a Euclidean distance below 100 from the centre of the
    candidate's box. For either colour name, [detect_objects] builds its
    output from the candidates for which [is_bomb_near] answers false and
    from no other: a candidate answered true contributes nothing, and when
    every candidate is answered true the output is empty. *)
Theorem hazard_filter_is_absolute (s : State) (lb : loc) (mb : Mask) :
  mask_bomb (self s) = Some lb →
  heap s !! lb = Some (Msk mb) →
  (∀ x y w h, ∃ b s',
      is_bomb_near x y w h s = Ok (b, s')
      ∧ (b = true ↔
         ∃ c, c ∈ findContours mb
              ∧ (euclidean_distance (rect_center (cv2.boundingRect c))
                   (x + w `div` 2, y + h `div` 2)%Z < 100)%R))
  ∧ (∀ mask m color_name,
      heap s !! mask = Some (Msk m) →
      ∃ (near : Contour → bool) out s',
        (∀ cnt x y w h,
            cv2.boundingRect cnt = (x, y, w, h) →
            value (is_bomb_near x y w h s) = Ok (near cnt))
        ∧ detect_objects mask color_name s = Ok (out, s')
        ∧ out =
            detection_of (self s) <$>
              filter (λ cnt, ¬ (color_name = "green"
                                ∧ outside_band (self s)
                                    (rect_center (cv2.boundingRect cnt)).2))
                (filter (λ cnt, near cnt = false) (findContours m))
        ∧ ((∀ cnt, cnt ∈ findContours m → near cnt = true) → out = [])).
Proof.
  intros Hattr Hheap. split.
  - intros x y w h. eexists _, _.
    split; [by eapply is_bomb_near_run|].
    rewrite is_bomb_near_loop_true.
    split; intros (c & Hc & Hlt); exists c; (split; [done|]).
    + by apply (linalg_norm_lt_euclidean _ (_, _) 100) in Hlt.
    + by apply (linalg_norm_lt_euclidean _ (_, _) 100).
  - intros mask m color_name Hmask.
    exists (hazard_near mb). eexists _, _. split; [|split; [|split]].
    + intros cnt x y w h Hrect.
      rewrite (is_bomb_near_run s lb mb) by done. simpl.
      unfold hazard_near, rect_center. by rewrite Hrect.
    + by eapply detect_objects_run.
    + apply positions_survivors.
    + intros Hall. rewrite positions_survivors.
      rewrite (filter_none (λ cnt, hazard_near mb cnt = false)); [done|].
      intros cnt Hcnt. by rewrite Hall.
Qed.


(** C9 — detections stay in the monitored rectangle. When the contours
    [findContours] returns are made of foreground pixels of their mask and
    the mask has [height] rows of [width] pixels, every pair emitted by
    [detect_objects] has its abscissa between [start_x] and
    [start_x + width - 1] and its ordinate between [start_y + 3] and
    [start_y + height + 2]. *)
Theorem detections_inside_region (s : State) (mask lb : loc) (m mb : Mask)
    (color_name : string) :
  contours_on_foreground cv →
  heap s !! mask = Some (Msk m) →
  mask_bomb (self s) = Some lb →
  heap s !! lb = Some (Msk mb) →
  Z.of_nat (length m) = height (self s) →
  Forall (λ row, Z.of_nat (length row) = width (self s)) m →
  ∃ out s',
    detect_objects mask color_name s = Ok (out, s')
    ∧ Forall (λ p : Z * Z,
        start_x (self s) ≤ p.1 ≤ start_x (self s) + width (self s) - 1
        ∧ start_y (self s) + 3 ≤ p.2 ≤ start_y (self s) + height (self s) + 2)
        out.
Proof.
  intros Hcv Hmask Hattr Hheap Hrows Hcols. eexists _, _.
  split; [by eapply detect_objects_run|].
  unfold positions. apply Forall_fmap, Forall_forall. intros cnt Hcnt.
  apply list_elem_of_filter in Hcnt as [_ Hcnt].
  destruct (Hcv m cnt Hcnt) as [Hne Hfg].
  destruct (boundingRect_inside cnt (width (self s)) (height (self s)) Hne)
    as (x & y & w & h & Hrect & ?).
  { eapply Forall_impl; [exact Hfg|]. intros p Hp.
    by eapply foreground_inside. }
  unfold compose, detection_of, rect_center. rewrite Hrect. simpl.
  pose proof (Z.div_pos w 2). pose proof (Z.div_lt_upper_bound w 2 w).
  pose proof (Z.div_pos h 2). pose proof (Z.div_lt_upper_bound h 2 h).
  lia.
Qed.

(** C7 — precomputing the hazard centres. The cycle that extracts the
    centres of the hazard blobs once, after [set_masks], and tests every
    candidate against that list returns what [detect_colors] returns and
    leaves the same arrays and the same attributes, on every state and
    frame reference, failures included; only the log of OpenCV calls
    differs. *)
Theorem precomputed_hazards_refine (s : State) (frame : loc) :
  observable (detect_colors_precomputed frame s)
  = observable (detect_colors frame s).
Proof.
  destruct (heap s !! frame) as [[im|m]|] eqn:Hframe.
  - rewrite (detect_colors_run s frame im) by done.
    unfold detect_colors_precomputed.
    erewrite bind_Ok by (apply set_masks_run; eassumption).
    pose proof (after_set_masks_pink frame im s) as Hp.
    pose proof (after_set_masks_green frame im s) as Hg.
    pose proof (after_set_masks_bomb frame im s) as Hb.
    set (s1 := after_set_masks frame im s) in *.
    erewrite bind_Ok by (eapply hazard_centers_run; [reflexivity|exact Hb]).
    erewrite bind_Ok by reflexivity.
    erewrite bind_Ok by (eapply detect_objects_precomputed_run; exact Hp).
    unfold pipeline. simpl self.
    rewrite (positions_region _ (self s) _ "pink") by reflexivity.
    destruct (positions (self s) (bomb_of im) "pink" _) as [|p pink]; [|done].
    erewrite bind_Ok by reflexivity.
    erewrite bind_Ok by (eapply detect_objects_precomputed_run; exact Hg).
    simpl. by rewrite (positions_region _ (self s) _ "green") by reflexivity.
  - destruct (set_masks_fails s frame) as [e He]; [congruence|].
    unfold detect_colors_precomputed, detect_colors.
    by rewrite !(bind_Raise _ _ _ _ He).
  - destruct (set_masks_fails s frame) as [e He]; [congruence|].
    unfold detect_colors_precomputed, detect_colors.
    by rewrite !(bind_Raise _ _ _ _ He).
Qed.

End Claims.

(** ** The band rule of [detect_objects], as the code has it *)

Section BandRule.
Context {cv : OpenCV}.

(** "pink", like any colour name other than "green", is subject to the
    hazard test only. *)
Lemma pink_has_no_band (d : Detection) (mb : Mask) (contours : list Contour) :
  positions d mb "pink" contours =
    detection_of d <$> filter (λ cnt, hazard_near mb cnt = false) contours.
Proof.
  unfold positions. f_equal. apply list_filter_iff. intros cnt.
  unfold admitted. rewrite bool_decide_false by done. simpl.
  rewrite andb_true_r. by destruct (hazard_near mb cnt).
Qed.

(** A "green" candidate is admitted when no hazard is near and its
    mask-local centre ordinate lies between [start_y + height quot 10] and
    [start_y + height - height quot 10], both included: the limits carry
    the screen offset [start_y], the centre does not. *)
Lemma green_band_rule (d : Detection) (mb : Mask) (cnt : Contour) :
  admitted d mb "green" cnt = true
  ↔ hazard_near mb cnt = false
    ∧ start_y d + height d `quot` 10
      ≤ (rect_center (cv2.boundingRect cnt)).2
      ≤ start_y d + height d - height d `quot` 10.
Proof.
  unfold admitted, outside_band, int_tenth.
  rewrite bool_decide_true by done. simpl.
  rewrite andb_true_iff, !negb_true_iff, orb_false_iff, !Z.ltb_ge. tauto.
Qed.

End BandRule.

(** C1 — the band rule of the "green" category. One green candidate whose
    box is (45, 45, 10, 10) in a region of height 100, no hazard anywhere:
    its mask-local centre ordinate is 50, half the height. With the region
    at the top of the screen it is admitted; with the same region 500
    pixels down the screen it is discarded, because the limits it is
    compared with are screen ordinates (510 and 590). *)
Theorem green_band_follows_region_origin :
  value (detect_objects (cv := Reference.cv) 0%nat "green"
           (Scenes.green_candidate 0 45)) = Ok [(50, 53)]
  ∧ value (detect_objects (cv := Reference.cv) 0%nat "green"
             (Scenes.green_candidate 500 45)) = Ok []
  ∧ value (detect_objects (cv := Reference.cv) 0%nat "pink"
             (Scenes.green_candidate 500 45)) = Ok [(50, 553)].
Proof. by vm_compute. Qed.

(** At the top of the screen the rule is the one described: a centre at 5%
    of the height is rejected, centres at 10% and at 50% are admitted, one
    just above 10% is rejected. *)
Example green_band_at_screen_top :
  value (detect_objects (cv := Reference.cv) 0%nat "green"
           (Scenes.green_candidate 0 0)) = Ok []
  ∧ value (detect_objects (cv := Reference.cv) 0%nat "green"
             (Scenes.green_candidate 0 4)) = Ok []
  ∧ value (detect_objects (cv := Reference.cv) 0%nat "green"
             (Scenes.green_candidate 0 5)) = Ok [(50, 13)]
  ∧ value (detect_objects (cv := Reference.cv) 0%nat "green"
             (Scenes.green_candidate 0 45)) = Ok [(50, 53)].
Proof. by vm_compute. Qed.

(** ** [Coordinate.get_coordinates] *)

Lemma decimal_value_nonneg (s : string) :
  ∀ acc, 0 ≤ acc →
    Coordinate.all_chars Coordinate.is_decimal_char s = true →
    0 ≤ Coordinate.decimal_value acc s.
Proof.
  induction s as [|c s IH]; intros acc Hacc Hall; simpl in *; [done|].
  apply andb_true_iff in Hall as [Hc Hall]. apply IH; [|done].
  unfold Coordinate.is_decimal_char in Hc.
  apply andb_true_iff in Hc as [Hlo _]. apply N.leb_le in Hlo. lia.
Qed.

Lemma int_nonneg (s : string) (v : Z) : Coordinate.int_ s = Ok v → 0 ≤ v.
Proof.
  unfold Coordinate.int_.
  destruct (Coordinate.all_chars Coordinate.is_decimal_char s) eqn:Hall;
    simpl; [|done].
  destruct (_ && _); [|done]. intros [= <-].
  by apply decimal_value_nonneg.
Qed.

(** C5, as stated, fails: a file whose [end_x] precedes its [start_x] and
    whose [end_y] equals its [start_y] is accepted, and the tuple returned
    has a negative width and a zero height. *)
Lemma get_coordinates_accepts_reversed_region :
  (Coordinate.get_coordinates Scenes.reversed_file "window_coordinates.txt").2
    = Ok (Some (10, 20, -5, 0))
  ∧ ¬ (∀ w path x y wd ht,
         (Coordinate.get_coordinates w path).2 = Ok (Some (x, y, wd, ht)) →
         0 ≤ x ∧ 0 ≤ y ∧ 0 < wd ∧ 0 < ht).
Proof.
  assert (Hrun : (Coordinate.get_coordinates Scenes.reversed_file
                    "window_coordinates.txt").2 = Ok (Some (10, 20, -5, 0)))
    by (by vm_compute).
  split; [exact Hrun|]. intros Hall. apply Hall in Hrun. lia.
Qed.

(** C5, amended — [get_coordinates] returns [None] when the file is missing
    and when one of the four values fails [str.isdigit]; when it returns a
    tuple [(x, y, wd, ht)], the four values passed [str.isdigit], [x] and
    [y] are the non-negative integers read from [start_x] and [start_y],
    and [wd] and [ht] are the differences [end_x - start_x] and
    [end_y - start_y] of non-negative integers. Nothing is said of the sign
    of the differences. *)
Theorem get_coordinates_outcomes (w : Coordinate.World) (path : string) :
  (Coordinate.files w !! path = None →
     (Coordinate.get_coordinates w path).2 = Ok None)
  ∧ (∀ repository start_x end_x start_y end_y,
       Coordinate.files w !! path = Some repository →
       Coordinate.config w repository "start_x" = Ok start_x →
       Coordinate.config w repository "end_x" = Ok end_x →
       Coordinate.config w repository "start_y" = Ok start_y →
       Coordinate.config w repository "end_y" = Ok end_y →
       Coordinate.isdigit start_x && Coordinate.isdigit end_x
         && Coordinate.isdigit start_y && Coordinate.isdigit end_y = false →
       (Coordinate.get_coordinates w path).2 = Ok None)
  ∧ (∀ x y wd ht,
       (Coordinate.get_coordinates w path).2 = Ok (Some (x, y, wd, ht)) →
       ∃ repository start_x end_x start_y end_y x2 y2,
         Coordinate.files w !! path = Some repository
         ∧ Coordinate.config w repository "start_x" = Ok start_x
         ∧ Coordinate.config w repository "end_x" = Ok end_x
         ∧ Coordinate.config w repository "start_y" = Ok start_y
         ∧ Coordinate.config w repository "end_y" = Ok end_y
         ∧ Coordinate.isdigit start_x = true
         ∧ Coordinate.isdigit end_x = true
         ∧ Coordinate.isdigit start_y = true
         ∧ Coordinate.isdigit end_y = true
         ∧ Coordinate.int_ start_x = Ok x ∧ Coordinate.int_ end_x = Ok x2
         ∧ Coordinate.int_ start_y = Ok y ∧ Coordinate.int_ end_y = Ok y2
         ∧ 0 ≤ x ∧ 0 ≤ x2 ∧ 0 ≤ y ∧ 0 ≤ y2
         ∧ wd = x2 - x ∧ ht = y2 - y).
Proof.
  unfold Coordinate.get_coordinates, Coordinate.check_directory.
  split; [|split].
  - intros Hfile. by rewrite Hfile.
  - intros repository sx ex sy ey Hfile Hsx Hex Hsy Hey Hdigit.
    rewrite Hfile. simpl. rewrite Hsx, Hex, Hsy, Hey. simpl.
    unfold Coordinate.check_coordinates.
    destruct (Coordinate.isdigit sx), (Coordinate.isdigit ex),
      (Coordinate.isdigit sy), (Coordinate.isdigit ey); simpl in *; done.
  - intros x y wd ht.
    destruct (Coordinate.files w !! path) as [repository|] eqn:Hfile;
      simpl; [|done].
    destruct (Coordinate.config w repository "start_x") as [sx|] eqn:Hsx;
      simpl; [|done].
    destruct (Coordinate.config w repository "end_x") as [ex|] eqn:Hex;
      simpl; [|done].
    destruct (Coordinate.config w repository "start_y") as [sy|] eqn:Hsy;
      simpl; [|done].
    destruct (Coordinate.config w repository "end_y") as [ey|] eqn:Hey;
      simpl; [|done].
    unfold Coordinate.check_coordinates.
    destruct (Coordinate.isdigit sx) eqn:Dsx; simpl; [|done].
    destruct (Coordinate.isdigit ex) eqn:Dex; simpl; [|done].
    destruct (Coordinate.isdigit sy) eqn:Dsy; simpl; [|done].
    destruct (Coordinate.isdigit ey) eqn:Dey; simpl; [|done].
    destruct (Coordinate.int_ sx) as [x'|] eqn:Isx; simpl; [|done].
    destruct (Coordinate.int_ ex) as [x2|] eqn:Iex; simpl; [|done].
    destruct (Coordinate.int_ sy) as [y'|] eqn:Isy; simpl; [|done].
    destruct (Coordinate.int_ ey) as [y2|] eqn:Iey; simpl; [|done].
    intros [= <- <- <- <-].
    exists repository, sx, ex, sy, ey, x2, y2.
    repeat split; eauto using int_nonneg.
Qed.

(** A well-formed file gives the rectangle; a value that passes
    [str.isdigit] without being a decimal literal makes [int] raise. *)
Example get_coordinates_runs :
  Coordinate.get_coordinates Scenes.good_file "window_coordinates.txt"
    = ([], Ok (Some (100, 200, 400, 700)))
  ∧ (Coordinate.get_coordinates Scenes.good_file "elsewhere.txt").2 = Ok None
  ∧ (Coordinate.get_coordinates Scenes.superscript_file
       "window_coordinates.txt").2 = Raise ValueError.
Proof. by vm_compute. Qed.

(** ** The claims on concrete inputs *)

(** The first frame of the specification's example: the pink extractor
    yields [(10,20); (30,40)], the green one [(50,60)], and the cycle
    returns the single pair (10, 20). *)
Example selection_pink_preempts_green :
  let s := Scenes.fresh Scenes.two_pink_one_green 0 0 64 56 in
  ∃ s1,
    set_masks (cv := Reference.cv) 0%nat s = Ok ((), s1)
    ∧ mask_pink (self s1) = Some 6%nat
    ∧ mask_green (self s1) = Some 8%nat
    ∧ value (detect_objects (cv := Reference.cv) 6%nat "pink" s1)
        = Ok [(10, 20); (30, 40)]
    ∧ value (detect_objects (cv := Reference.cv) 8%nat "green" s1)
        = Ok [(50, 60)]
    ∧ value (detect_colors (cv := Reference.cv) 0%nat s)
        = Ok (0%nat, Single (10, 20)).
Proof.
  intros s. set (im := Scenes.two_pink_one_green).
  assert (Hpink :
    positions (cv := Reference.cv) (self s) (bomb_of (cv := Reference.cv) im)
      "pink" (@findContours Reference.cv (pink_of (cv := Reference.cv) im))
    = [(10, 20); (30, 40)]) by (by vm_compute).
  assert (Hgreen :
    positions (cv := Reference.cv) (self s) (bomb_of (cv := Reference.cv) im)
      "green" (@findContours Reference.cv (green_of (cv := Reference.cv) im))
    = [(50, 60)]) by (by vm_compute).
  exists (after_set_masks (cv := Reference.cv) 0%nat im s).
  split; [by apply set_masks_run|]. do 2 (split; [reflexivity|]).
  split; [|split].
  - erewrite (detect_objects_run (cv := Reference.cv));
      [|exact (after_set_masks_pink 0%nat im s)|reflexivity
       |exact (after_set_masks_bomb 0%nat im s)].
    cbn [value].
    rewrite (positions_region (cv := Reference.cv) _ (self s) _ "pink")
      by reflexivity.
    rewrite Hpink. reflexivity.
  - erewrite (detect_objects_run (cv := Reference.cv));
      [|exact (after_set_masks_green 0%nat im s)|reflexivity
       |exact (after_set_masks_bomb 0%nat im s)].
    cbn [value].
    rewrite (positions_region (cv := Reference.cv) _ (self s) _ "green")
      by reflexivity.
    rewrite Hgreen. reflexivity.
  - rewrite (detect_colors_run (cv := Reference.cv) s 0%nat im) by done.
    cbn [value]. unfold pipeline. rewrite Hpink. reflexivity.
Qed.

(** The second frame: no pink, and the cycle returns the whole green
    list. *)
Example selection_green_when_no_pink :
  value (detect_colors (cv := Reference.cv) 0%nat
           (Scenes.fresh Scenes.two_green 45 0 86 30))
    = Ok (0%nat, Many [(50, 60); (70, 80)]).
Proof. by vm_compute. Qed.

(** Hazard absoluteness: a bomb blob 99 pixels from the candidate vetoes
    it, for "pink" and for "green" alike; one 100 or 150 pixels away does
    not. *)
Example hazard_veto_at_99_pixels :
  value (detect_objects (cv := Reference.cv) 0%nat "pink"
           (Scenes.candidate_and_hazard 109)) = Ok []
  ∧ value (detect_objects (cv := Reference.cv) 0%nat "green"
             (Scenes.candidate_and_hazard 109)) = Ok []
  ∧ value (detect_objects (cv := Reference.cv) 0%nat "pink"
             (Scenes.candidate_and_hazard 110)) = Ok [(310, 213)]
  ∧ value (detect_objects (cv := Reference.cv) 0%nat "pink"
             (Scenes.candidate_and_hazard 160)) = Ok [(310, 213)].
Proof. by vm_compute. Qed.

(** One isolated pink blob centred at (10, 10), region origin (300, 200). *)
Example single_blob_on_example_frame :
  value (detect_colors (cv := Reference.cv) 0%nat
           (Scenes.fresh Scenes.one_pink 300 200 20 20))
    = Ok (0%nat, Single (310, 213)).
Proof. by vm_compute. Qed.





(** C3 at a concrete input: a candidate with a bomb blob 90 pixels away. *)
Lemma hazard_filter_is_absolute_witness :
  let s := Scenes.candidate_and_hazard 100 in
  mask_bomb (self s) = Some 1%nat
  ∧ heap s !! 1%nat = Some (Msk (Scenes.blob_mask 20 170 8 98 5))
  ∧ (∃ b s', is_bomb_near (cv := Reference.cv) 8 8 5 5 s = Ok (b, s'))
  ∧ ∃ (near : Contour → bool) out s',
      detect_objects (cv := Reference.cv) 0%nat "pink" s = Ok (out, s')
      ∧ ((∀ cnt,
            cnt ∈ @findContours Reference.cv (Scenes.blob_mask 20 170 8 8 5) →
            near cnt = true) → out = []).
Proof.
  intros s. split; [reflexivity|]. split; [reflexivity|].
  destruct (hazard_filter_is_absolute (cv := Reference.cv) s 1%nat
              (Scenes.blob_mask 20 170 8 98 5) eq_refl eq_refl)
    as [Hnear Hdiscard].
  split.
  - destruct (Hnear 8 8 5 5) as (b & s' & Hrun & _).
    exists b, s'. exact Hrun.
  - destruct (Hdiscard 0%nat (Scenes.blob_mask 20 170 8 8 5) "pink"%string
                eq_refl)
      as (near & out & s' & _ & Hrun & _ & Hall).
    exists near, out, s'. split; [exact Hrun|exact Hall].
Defined.


(** C9 at a concrete input: a candidate in a mask of the region's size. *)
Lemma detections_inside_region_witness :
  let s := Scenes.candidate_and_hazard 160 in
  contours_on_foreground Reference.cv
  ∧ heap s !! 0%nat = Some (Msk (Scenes.blob_mask 20 170 8 8 5))
  ∧ mask_bomb (self s) = Some 1%nat
  ∧ heap s !! 1%nat = Some (Msk (Scenes.blob_mask 20 170 8 158 5))
  ∧ Z.of_nat (length (Scenes.blob_mask 20 170 8 8 5)) = height (self s)
  ∧ Forall (λ row, Z.of_nat (length row) = width (self s))
      (Scenes.blob_mask 20 170 8 8 5)
  ∧ ∃ out s',
      detect_objects (cv := Reference.cv) 0%nat "pink" s = Ok (out, s')
      ∧ Forall (λ p : Z * Z,
          start_x (self s) ≤ p.1 ≤ start_x (self s) + width (self s) - 1
          ∧ start_y (self s) + 3 ≤ p.2
            ≤ start_y (self s) + height (self s) + 2) out.
Proof.
  intros s.
  assert (Hcols : Forall (λ row, Z.of_nat (length row) = width (self s))
                    (Scenes.blob_mask 20 170 8 8 5)).
  { unfold Scenes.blob_mask, Scenes.paint.
    apply Forall_fmap, Forall_true. intros r. unfold compose.
    rewrite (length_fmap _ (seq 0 170)), length_seq. reflexivity. }
  split; [exact ReferenceFacts.contract|]. do 4 (split; [reflexivity|]).
  split; [exact Hcols|].
  exact (detections_inside_region (cv := Reference.cv) s 0%nat 1%nat
           (Scenes.blob_mask 20 170 8 8 5) (Scenes.blob_mask 20 170 8 158 5)
           "pink" ReferenceFacts.contract eq_refl eq_refl eq_refl eq_refl
           Hcols).
Defined.

(** ** Further properties: [Coordinate] *)

Lemma config_outcomes (w : Coordinate.World) (repository : gmap string string)
    (option : string) :
  (∃ value, Coordinate.config w repository option = Ok value)
  ∨ Coordinate.config w repository option = Raise UndefinedValueError.
Proof.
  unfold Coordinate.config.
  destruct (Coordinate.environ w !! option); [eauto|].
  destruct (repository !! option); eauto.
Qed.

Lemma int_outcomes (s : string) :
  (∃ v, Coordinate.int_ s = Ok v) ∨ Coordinate.int_ s = Raise ValueError.
Proof. unfold Coordinate.int_. destruct (_ && _); eauto. Qed.

Lemma decimal_isdigit (s : string) :
  Coordinate.all_chars Coordinate.is_decimal_char s = true →
  Coordinate.all_chars Coordinate.isdigit_char s = true.
Proof.
  induction s as [|c s IH]; simpl; [done|].
  rewrite !andb_true_iff. intros [Hc Hs]. split; [|auto].
  unfold Coordinate.isdigit_char. by rewrite Hc.
Qed.

(** X1 — a missing option. When the file exists and one of the four
    options is neither in the environment nor in the file,
    [get_coordinates] raises [UndefinedValueError]: it neither returns
    [None] nor logs a warning. *)
Theorem get_coordinates_missing_option (w : Coordinate.World) (path : string)
    (repository : gmap string string) (option : string) :
  Coordinate.files w !! path = Some repository →
  option ∈ coordinate_options →
  Coordinate.environ w !! option = None →
  repository !! option = None →
  Coordinate.get_coordinates w path = ([], Raise UndefinedValueError).
Proof.
  intros Hfile Hoption Henv Hrepo.
  assert (Hmiss : Coordinate.config w repository option
                  = Raise UndefinedValueError).
  { unfold Coordinate.config. by rewrite Henv, Hrepo. }
  unfold Coordinate.get_coordinates, Coordinate.check_directory.
  rewrite Hfile. simpl.
  unfold coordinate_options in Hoption. rewrite !elem_of_cons in Hoption.
  destruct (config_outcomes w repository "start_x") as [[sx Hsx]|Hsx],
    (config_outcomes w repository "end_x") as [[ex Hex]|Hex],
    (config_outcomes w repository "start_y") as [[sy Hsy]|Hsy],
    (config_outcomes w repository "end_y") as [[ey Hey]|Hey];
    rewrite ?Hsx, ?Hex, ?Hsy, ?Hey; simpl; try reflexivity.
  destruct Hoption as [->|[->|[->|[->|Hnil]]]];
    [congruence..|by apply elem_of_nil in Hnil].
Qed.

(** X2 — digits that are no decimals. When the four options are present
    and pass [str.isdigit] but one of them holds a character that is no
    decimal digit (a superscript two, say) or is longer than the
    interpreter converts, [get_coordinates] raises [ValueError] out of
    [int]; no warning is logged and [None] is not returned. *)
Theorem get_coordinates_int_raises (w : Coordinate.World) (path : string)
    (repository : gmap string string) (start_x end_x start_y end_y : string) :
  Coordinate.files w !! path = Some repository →
  Coordinate.config w repository "start_x" = Ok start_x →
  Coordinate.config w repository "end_x" = Ok end_x →
  Coordinate.config w repository "start_y" = Ok start_y →
  Coordinate.config w repository "end_y" = Ok end_y →
  Forall (λ s, Coordinate.isdigit s = true) [start_x; end_x; start_y; end_y] →
  Exists (λ s, Coordinate.all_chars Coordinate.is_decimal_char s = false
               ∨ (Coordinate.int_max_str_digits < String.length s)%nat)
    [start_x; end_x; start_y; end_y] →
  Coordinate.get_coordinates w path = ([], Raise ValueError).
Proof.
  intros Hfile Hsx Hex Hsy Hey Hdigit Hbad.
  assert (Hraise : ∀ s,
    Coordinate.all_chars Coordinate.is_decimal_char s = false
    ∨ (Coordinate.int_max_str_digits < String.length s)%nat →
    Coordinate.int_ s = Raise ValueError).
  { intros s [Hs|Hs]; unfold Coordinate.int_.
    - by rewrite Hs.
    - apply Nat.leb_gt in Hs. rewrite Hs. by rewrite andb_false_r. }
  rewrite !Forall_cons in Hdigit.
  destruct Hdigit as (Dsx & Dex & Dsy & Dey & _).
  unfold Coordinate.get_coordinates, Coordinate.check_directory.
  rewrite Hfile. simpl. rewrite Hsx, Hex, Hsy, Hey. simpl.
  unfold Coordinate.check_coordinates. rewrite Dsx, Dex, Dsy, Dey. simpl.
  rewrite !Exists_cons in Hbad.
  destruct (int_outcomes start_x) as [[x Ix]|Ix],
    (int_outcomes end_x) as [[x2 Ix2]|Ix2],
    (int_outcomes start_y) as [[y Iy]|Iy],
    (int_outcomes end_y) as [[y2 Iy2]|Iy2];
    rewrite ?Ix, ?Ix2, ?Iy, ?Iy2; simpl; try reflexivity.
  destruct Hbad as [H|[H|[H|[H|H]]]];
    [apply Hraise in H; congruence..|by apply Exists_nil in H].
Qed.

(** X3 — warnings and results go together. Whenever [get_coordinates]
    returns [None] it has logged exactly one warning, about the file when
    the file is missing and about the numbers otherwise; when it returns a
    tuple or raises it has logged nothing. *)
Theorem get_coordinates_warnings (w : Coordinate.World) (path : string) :
  match Coordinate.get_coordinates w path with
  | (warned, Ok None) =>
      (Coordinate.files w !! path = None
       ∧ warned =
         ["Make sure window_coordinates.txt file exists in the directory!"
          %string])
      ∨ (is_Some (Coordinate.files w !! path)
         ∧ warned = ["Make sure all coordinates are numbers!"%string])
  | (warned, _) => warned = []
  end.
Proof.
  unfold Coordinate.get_coordinates, Coordinate.check_directory.
  destruct (Coordinate.files w !! path) as [repository|] eqn:Hfile; simpl;
    [|by left].
  destruct (Coordinate.config w repository "start_x") as [sx|]; simpl;
    [|done].
  destruct (Coordinate.config w repository "end_x") as [ex|]; simpl; [|done].
  destruct (Coordinate.config w repository "start_y") as [sy|]; simpl;
    [|done].
  destruct (Coordinate.config w repository "end_y") as [ey|]; simpl; [|done].
  unfold Coordinate.check_coordinates.
  destruct (negb (Coordinate.isdigit sx) || negb (Coordinate.isdigit ex)
            || negb (Coordinate.isdigit sy) || negb (Coordinate.isdigit ey));
    simpl; [right; eauto|].
  destruct (Coordinate.int_ sx); simpl; [|done].
  destruct (Coordinate.int_ ex); simpl; [|done].
  destruct (Coordinate.int_ sy); simpl; [|done].
  destruct (Coordinate.int_ ey); simpl; done.
Qed.

(** X4 — a well-formed file is accepted. When the four options are
    present and each is a non-empty string of decimal digits no longer
    than the interpreter converts, [get_coordinates] logs nothing and
    returns the start corner with the differences of the ends and the
    starts, read in base ten (leading zeros allowed). *)
Theorem get_coordinates_accepts_decimals (w : Coordinate.World)
    (path : string) (repository : gmap string string)
    (start_x end_x start_y end_y : string) :
  Coordinate.files w !! path = Some repository →
  Coordinate.config w repository "start_x" = Ok start_x →
  Coordinate.config w repository "end_x" = Ok end_x →
  Coordinate.config w repository "start_y" = Ok start_y →
  Coordinate.config w repository "end_y" = Ok end_y →
  Forall (λ s, s ≠ EmptyString
               ∧ Coordinate.all_chars Coordinate.is_decimal_char s = true
               ∧ (String.length s ≤ Coordinate.int_max_str_digits)%nat)
    [start_x; end_x; start_y; end_y] →
  Coordinate.get_coordinates w path =
    ([], Ok (Some (Coordinate.decimal_value 0 start_x,
                   Coordinate.decimal_value 0 start_y,
                   Coordinate.decimal_value 0 end_x
                   - Coordinate.decimal_value 0 start_x,
                   Coordinate.decimal_value 0 end_y
                   - Coordinate.decimal_value 0 start_y))).
Proof.
  intros Hfile Hsx Hex Hsy Hey Hgood.
  assert (Hdigit : ∀ s,
    s ≠ EmptyString
    ∧ Coordinate.all_chars Coordinate.is_decimal_char s = true
    ∧ (String.length s ≤ Coordinate.int_max_str_digits)%nat →
    Coordinate.isdigit s = true
    ∧ Coordinate.int_ s = Ok (Coordinate.decimal_value 0 s)).
  { intros s (Hne & Hall & Hlen). split.
    - destruct s; [done|]. by apply (decimal_isdigit (String _ _)).
    - unfold Coordinate.int_. rewrite Hall.
      apply Nat.leb_le in Hlen. rewrite Hlen. by destruct s. }
  rewrite !Forall_cons in Hgood.
  destruct Hgood as (Gsx & Gex & Gsy & Gey & _).
  apply Hdigit in Gsx as [Dsx Isx], Gex as [Dex Iex],
    Gsy as [Dsy Isy], Gey as [Dey Iey].
  unfold Coordinate.get_coordinates, Coordinate.check_directory.
  rewrite Hfile. simpl. rewrite Hsx, Hex, Hsy, Hey. simpl.
  unfold Coordinate.check_coordinates. rewrite Dsx, Dex, Dsy, Dey. simpl.
  by rewrite Isx, Iex, Isy, Iey.
Qed.

Lemma get_coordinates_cases (w : Coordinate.World) (path : string) :
  match Coordinate.get_coordinates w path with
  | (warned, Ok None) => length warned = 1%nat
  | (warned, Ok (Some (x, y, _, _))) => warned = [] ∧ 0 ≤ x ∧ 0 ≤ y
  | (warned, Raise _) => warned = []
  end.
Proof.
  unfold Coordinate.get_coordinates, Coordinate.check_directory.
  destruct (Coordinate.files w !! path) as [repository|] eqn:Hfile; simpl;
    [|done].
  destruct (Coordinate.config w repository "start_x") as [sx|]; simpl;
    [|done].
  destruct (Coordinate.config w repository "end_x") as [ex|]; simpl; [|done].
  destruct (Coordinate.config w repository "start_y") as [sy|]; simpl;
    [|done].
  destruct (Coordinate.config w repository "end_y") as [ey|]; simpl; [|done].
  unfold Coordinate.check_coordinates.
  destruct (negb (Coordinate.isdigit sx) || negb (Coordinate.isdigit ex)
            || negb (Coordinate.isdigit sy) || negb (Coordinate.isdigit ey));
    simpl; [done|].
  destruct (Coordinate.int_ sx) as [x|] eqn:Ix; simpl; [|done].
  destruct (Coordinate.int_ ex); simpl; [|done].
  destruct (Coordinate.int_ sy) as [y|] eqn:Iy; simpl; [|done].
  destruct (Coordinate.int_ ey); simpl; [|done].
  eauto using int_nonneg.
Qed.

(** X5 — [main_clicker.get_coordinates] never hands [None] on: it leaves
    the program exactly when [Coordinate.get_coordinates] returned [None],
    after one warning was logged; when it returns, it returns the tuple
    read, whose start corner is non-negative, and nothing was logged. *)
Theorem main_get_coordinates_outcomes (w : Coordinate.World) :
  match main_get_coordinates w with
  | (warned, Exits) =>
      (Coordinate.get_coordinates w "window_coordinates.txt").2 = Ok None
      ∧ length warned = 1%nat
  | (warned, Returns (x, y, wd, ht)) =>
      (Coordinate.get_coordinates w "window_coordinates.txt").2
        = Ok (Some (x, y, wd, ht))
      ∧ warned = [] ∧ 0 ≤ x ∧ 0 ≤ y
  | (warned, Raises e) =>
      (Coordinate.get_coordinates w "window_coordinates.txt").2 = Raise e
      ∧ warned = []
  end.
Proof.
  unfold main_get_coordinates.
  pose proof (get_coordinates_cases w "window_coordinates.txt") as Hcases.
  destruct (Coordinate.get_coordinates w "window_coordinates.txt")
    as [warned [[[[[x y] wd] ht]|]|e]]; simpl; auto.
Qed.

(** ** Further properties: [Detection] *)













Section DetectionExtras.
Context {cv : OpenCV}.





(** X8 — methods called before [set_masks]. On an object whose masks were
    never set, [modify_masks] and [is_bomb_near] raise [AttributeError];
    [detect_objects] raises it as soon as the mask it is given has one
    contour, and returns the empty list, without looking at the bomb mask,
    when it has none. *)
Theorem methods_before_set_masks (s : State) :
  (mask_pink (self s) = None → modify_masks s = Raise AttributeError)
  ∧ (mask_bomb (self s) = None →
       (∀ x y w h, is_bomb_near x y w h s = Raise AttributeError)
       ∧ ∀ mask m color_name,
           heap s !! mask = Some (Msk m) →
           match findContours m with
           | [] =>
               detect_objects mask color_name s =
                 Ok ([], logged [FindContours mask] s)
           | _ :: _ =>
               detect_objects mask color_name s = Raise AttributeError
           end).
Proof.
  assert (Hnear : ∀ s0 x y w h,
    mask_bomb (self s0) = None →
    is_bomb_near x y w h s0 = Raise AttributeError).
  { intros s0 x y w h Hnone. unfold is_bomb_near. apply bind_Raise.
    unfold getattr. by rewrite Hnone. }
  split; [|split].
  - intros Hnone. unfold modify_masks. apply bind_Raise.
    unfold getattr. by rewrite Hnone.
  - intros. by apply Hnear.
  - intros mask m color_name Hmask. unfold detect_objects.
    erewrite bind_Ok by (apply call_findContours_run; eassumption).
    destruct (findContours m) as [|cnt rest]; [reflexivity|].
    simpl. destruct (cv2.boundingRect cnt) as [[[x y] w] h].
    apply bind_Raise. by apply Hnear.
Qed.

(** X9 — what [detect_objects] touches. With the bomb mask set,
    [detect_objects] leaves the store and the attributes of the object as
    they were; it calls [findContours] once on the mask it is given and
    then once on the bomb mask for every contour found, hazard-free or
    not. *)
Theorem detect_objects_footprint (s : State) (mask lb : loc) (m mb : Mask)
    (color_name : string) :
  heap s !! mask = Some (Msk m) →
  mask_bomb (self s) = Some lb →
  heap s !! lb = Some (Msk mb) →
  ∃ out s',
    detect_objects mask color_name s = Ok (out, s')
    ∧ heap s' = heap s
    ∧ self s' = self s
    ∧ calls s' =
        calls s ++ FindContours mask
                   :: replicate (length (findContours m)) (FindContours lb)
    ∧ (length out ≤ length (findContours m))%nat.
Proof.
  intros Hmask Hattr Hheap. eexists _, _.
  split; [by eapply detect_objects_run|].
  do 3 (split; [reflexivity|]).
  unfold positions. rewrite length_fmap. apply length_filter.
Qed.

Lemma positions_green_sublist d mb contours :
  positions d mb "green" contours `sublist_of` positions d mb "pink" contours.
Proof.
  induction contours as [|cnt rest IH]; [done|].
  rewrite !positions_cons. unfold admitted.
  assert (Hpink : bool_decide ("pink" = "green")%string = false)
    by by apply bool_decide_eq_false.
  assert (Hgreen : bool_decide ("green" = "green")%string = true)
    by by apply bool_decide_eq_true.
  rewrite Hpink, Hgreen.
  destruct (hazard_near mb cnt); simpl; [done|].
  destruct (outside_band d _); simpl.
  - by apply sublist_cons.
  - by apply sublist_skip.
Qed.

(** X10 — green is the stricter category. On the same mask and state, the
    positions [detect_objects] returns for "green" form a sublist, in the
    same order, of those it returns for "pink". *)
Theorem green_detections_among_pink (s : State) (mask lb : loc) (m mb : Mask) :
  heap s !! mask = Some (Msk m) →
  mask_bomb (self s) = Some lb →
  heap s !! lb = Some (Msk mb) →
  ∃ green pink sg sp,
    detect_objects mask "green" s = Ok (green, sg)
    ∧ detect_objects mask "pink" s = Ok (pink, sp)
    ∧ green `sublist_of` pink.
Proof.
  intros Hmask Hattr Hheap. eexists _, _, _, _.
  split; [by eapply detect_objects_run|].
  split; [by eapply detect_objects_run|].
  apply positions_green_sublist.
Qed.

Lemma candidate_centre_inside (m : Mask) (cnt : Contour) (W H : Z) :
  contours_on_foreground cv →
  Z.of_nat (length m) = H →
  Forall (λ row, Z.of_nat (length row) = W) m →
  cnt ∈ findContours m →
  0 ≤ (rect_center (cv2.boundingRect cnt)).1 ≤ W - 1
  ∧ 0 ≤ (rect_center (cv2.boundingRect cnt)).2 ≤ H - 1.
Proof.
  intros Hcv Hrows Hcols Hcnt.
  destruct (Hcv m cnt Hcnt) as [Hne Hfg].
  destruct (boundingRect_inside cnt W H Hne)
    as (x & y & w & h & Hrect & ?).
  { eapply Forall_impl; [exact Hfg|]. intros p Hp.
    by eapply foreground_inside. }
  unfold rect_center. rewrite Hrect. simpl.
  pose proof (Z.div_pos w 2). pose proof (Z.div_lt_upper_bound w 2 w).
  pose proof (Z.div_pos h 2). pose proof (Z.div_lt_upper_bound h 2 h).
  lia.
Qed.

(** X11 — a region low on the screen yields no green. When the mask has
    the region's dimensions and [start_y + height quot 10] is at least
    [height], every green candidate is discarded by the band test, hazard
    or not: [detect_objects] returns the empty list for "green". *)
Theorem green_empty_when_region_low (s : State) (mask lb : loc) (m mb : Mask) :
  contours_on_foreground cv →
  heap s !! mask = Some (Msk m) →
  mask_bomb (self s) = Some lb →
  heap s !! lb = Some (Msk mb) →
  Z.of_nat (length m) = height (self s) →
  Forall (λ row, Z.of_nat (length row) = width (self s)) m →
  height (self s) ≤ start_y (self s) + height (self s) `quot` 10 →
  ∃ s', detect_objects mask "green" s = Ok ([], s').
Proof.
  intros Hcv Hmask Hattr Hheap Hrows Hcols Hlow. eexists.
  erewrite detect_objects_run by done. f_equal. f_equal.
  unfold positions. rewrite filter_none; [done|].
  intros cnt Hcnt Hadm.
  destruct (candidate_centre_inside m cnt _ _ Hcv Hrows Hcols Hcnt)
    as [_ Hy].
  unfold admitted, outside_band, int_tenth in Hadm.
  rewrite bool_decide_true in Hadm by done.
  destruct (hazard_near mb cnt); simpl in Hadm; [done|].
  apply negb_prop_elim in Hadm. apply Hadm. apply Is_true_true.
  apply orb_true_iff. left. apply Z.ltb_lt. lia.
Qed.

End DetectionExtras.

(** ** Further properties: the polling loop *)




Lemma events_of_clicks (click_positions : Positions) :
  (if truthy click_positions then handle_click_positions click_positions
   else [])
  = clicks_of click_positions ≫= (λ p, [Move p.1 p.2; Click]).
Proof.
  destruct click_positions as [[x y]|[|p l]]; simpl; try done.
Qed.

Section LoopFacts.
Context {cv : OpenCV} {mss : Mss}.


Lemma perform_detection_run (scr : Screen) (start_x start_y width height : Z)
    (d : Desk) :
  let frame := capture_screen_region scr start_x start_y height width in
  let s := {| heap := store d ++ [Img frame];
              self := init start_x start_y height width;
              calls := cv_calls d |} in
  perform_detection scr start_x start_y width height d =
    Returns
      {| store := store d ++ Img frame :: arrays_of_set_masks frame;
         cv_calls :=
           cv_calls d
           ++ calls_of_set_masks (length (store d)) (S (length (store d)))
           ++ calls_of_detect_colors (self s) frame (S (length (store d)));
         mouse := mouse d
                  ++ (clicks_of (pipeline (self s) frame)
                        ≫= (λ p, [Move p.1 p.2; Click]));
         console := console d |}.
Proof.
  intros frame s. unfold perform_detection. fold frame. fold s.
  rewrite (detect_colors_run s (length (store d)) frame)
    by apply lookup_snoc_new.
  rewrite events_of_clicks. f_equal. f_equal.
  - unfold after_set_masks. simpl. by rewrite <- app_assoc.
  - unfold after_set_masks. simpl.
    rewrite length_app, Nat.add_1_r, <- app_assoc. reflexivity.
Qed.


Lemma detection_loop_cases (start_x start_y width height : Z)
    (keyboard : Keys) (scr : Screen) (l : Loop) (d : Desk) :
  (exit_keys keyboard
   ∧ detection_loop start_x start_y width height keyboard scr l d = Exits)
  ∨ (¬ exit_keys keyboard
     ∧ ∃ running' d',
         check_keyboard_input keyboard (running l) = Returns running'
         ∧ detection_loop start_x start_y width height keyboard scr l d =
             Returns
               ({| running := running';
                   was_running :=
                     (log_state_transition running' (was_running l)
                        (was_paused l)).2.1;
                   was_paused :=
                     (log_state_transition running' (was_running l)
                        (was_paused l)).2.2 |}, d')
         ∧ console d' =
             console d
             ++ (log_state_transition running' (was_running l)
                   (was_paused l)).1
         ∧ (running' = false →
            store d' = store d ∧ cv_calls d' = cv_calls d
            ∧ mouse d' = mouse d)).
Proof.
  unfold detection_loop, check_keyboard_input, exit_keys.
  destruct (s_pressed keyboard) eqn:Hs;
    [|destruct (p_pressed keyboard) eqn:Hp;
      [|destruct (ctrl_c_pressed keyboard) eqn:Hc; [by left|]]];
    right; (split; [intros (? & ? & ?); congruence|]);
    destruct (log_state_transition _ (was_running l) (was_paused l))
      as [lines [wr wp]] eqn:Hlog; simpl.
  - rewrite perform_detection_run. eexists _, _.
    split; [reflexivity|]. rewrite Hlog.
    do 2 (split; [reflexivity|]). intros [=].
  - eexists _, _. split; [reflexivity|]. rewrite Hlog.
    do 2 (split; [reflexivity|]). intros _. by repeat split.
  - destruct (running l).
    + rewrite perform_detection_run. eexists _, _.
      split; [reflexivity|]. rewrite Hlog.
      do 2 (split; [reflexivity|]). intros [=].
    + eexists _, _. split; [reflexivity|]. rewrite Hlog.
      do 2 (split; [reflexivity|]). intros _. by repeat split.
Qed.

(** X13 — the loop leaves only on ctrl+c. For a region of positive size,
    with screen grabs and OpenCV calls that succeed, whatever the keys and
    the screen at each firing of the timer, no exception escapes the loop
    (the masks are always set before they are read); it leaves the program
    exactly when at some firing ctrl+c is held while neither 's' nor 'p'
    is, and otherwise runs through all the firings. *)
Theorem loop_leaves_only_on_ctrl_c (start_x start_y width height : Z)
    (inputs : list (Keys * Screen)) (l : Loop) (d : Desk) :
  0 < width → 0 < height →
  match run_ticks start_x start_y width height inputs l d with
  | Returns _ => Forall (λ i, ¬ exit_keys i.1) inputs
  | Exits => Exists (λ i, exit_keys i.1) inputs
  | Raises _ => False
  end.
Proof.
  intros _ _. revert l d. induction inputs as [|[keyboard scr] rest IH]; intros l d.
  - simpl. constructor.
  - simpl.
    destruct (detection_loop_cases start_x start_y width height
                keyboard scr l d)
      as [[Hexit ->]|[Hstay (r' & d' & _ & -> & _)]].
    + by apply Exists_cons_hd.
    + set (l' := Build_Loop _ _ _). specialize (IH l' d').
      destruct (run_ticks start_x start_y width height rest l' d').
      * by apply Forall_cons.
      * by apply Exists_cons_tl.
      * done.
Qed.

(** X14 — no click before 's'. From the state [handle_detection] starts
    in, as long as 's' is not pressed at any firing, the loop stays
    paused: the screen is not captured, no OpenCV call is made and no
    mouse event is sent. *)
Theorem no_click_before_start (start_x start_y width height : Z)
    (inputs : list (Keys * Screen)) (d : Desk) :
  Forall (λ i, s_pressed i.1 = false) inputs →
  match run_ticks start_x start_y width height inputs initial_loop d with
  | Returns (l', d') =>
      running l' = false ∧ store d' = store d ∧ cv_calls d' = cv_calls d
      ∧ mouse d' = mouse d
  | Exits => True
  | Raises _ => False
  end.
Proof.
  intros Hkeys.
  assert (Hgen : ∀ l d0,
    running l = false →
    match run_ticks start_x start_y width height inputs l d0 with
    | Returns (l', d') =>
        running l' = false ∧ store d' = store d0
        ∧ cv_calls d' = cv_calls d0 ∧ mouse d' = mouse d0
    | Exits => True
    | Raises _ => False
    end); [|by apply Hgen].
  induction Hkeys as [|[keyboard scr] rest Hs _ IH]; intros l d0 Hl;
    [done|].
  simpl in *.
  destruct (detection_loop_cases start_x start_y width height
              keyboard scr l d0)
    as [[_ ->]|[_ (r' & d' & Hkey & -> & _ & Hpaused)]]; [done|].
  assert (r' = false) as ->.
  { unfold check_keyboard_input in Hkey. rewrite Hs, Hl in Hkey.
    destruct (p_pressed keyboard); [congruence|].
    destruct (ctrl_c_pressed keyboard); congruence. }
  destruct (Hpaused eq_refl) as (Hstore & Hcalls & Hmouse).
  set (l1 := Build_Loop _ _ _). specialize (IH l1 d' eq_refl).
  destruct (run_ticks start_x start_y width height rest l1 d')
    as [[l' d'']| |]; [|done..].
  destruct IH as (? & ? & ? & ?). repeat split; congruence.
Qed.

Lemma run_ticks_console (start_x start_y width height : Z)
    (inputs : list (Keys * Screen)) :
  ∀ l d,
    was_running l = running l →
    was_paused l = negb (running l) →
    match run_ticks start_x start_y width height inputs l d with
    | Returns (l', d') =>
        was_running l' = running l'
        ∧ was_paused l' = negb (running l')
        ∧ ∃ n, console d' = console d ++ alternation (running l) n
               ∧ running l' = xorb (running l) (Nat.odd n)
    | _ => True
    end.
Proof.
  induction inputs as [|[keyboard scr] rest IH]; intros l d Hwr Hwp.
  - simpl. do 2 (split; [done|]). exists 0%nat. simpl.
    by rewrite app_nil_r, xorb_false_r.
  - simpl.
    destruct (detection_loop_cases start_x start_y width height
                keyboard scr l d)
      as [[_ ->]|[_ (r' & d' & _ & -> & Hconsole & _)]]; [done|].
    set (l1 := Build_Loop _ _ _).
    assert (Hl1 : was_running l1 = running l1
                  ∧ was_paused l1 = negb (running l1)
                  ∧ ∃ k, (log_state_transition r' (was_running l)
                            (was_paused l)).1 = alternation (running l) k
                         ∧ r' = xorb (running l) (Nat.odd k)).
    { unfold l1, log_state_transition. rewrite Hwr, Hwp. simpl.
      destruct (running l), r'; simpl; (do 2 (split; [done|]));
        first [by exists 0%nat | by exists 1%nat]. }
    destruct Hl1 as (Hwr1 & Hwp1 & k & Hk & Hr1).
    specialize (IH l1 d' Hwr1 Hwp1).
    destruct (run_ticks start_x start_y width height rest l1 d')
      as [[l' d'']| |]; [|done..].
    destruct IH as (? & ? & n & Hc & Hr). do 2 (split; [done|]).
    exists (k + n)%nat. rewrite Hc, Hconsole, Hk, <- app_assoc.
    replace (running l1) with r' in * by done. rewrite Hr, Hr1.
    split.
    + f_equal. symmetry. clear. revert n. generalize (running l).
      induction k as [|k IHk]; intros b n; simpl.
      * by rewrite xorb_false_r.
      * f_equal. rewrite Nat.odd_succ, <- Nat.negb_odd.
        rewrite (IHk (negb b) n). f_equal. f_equal.
        by destruct b, (Nat.odd k).
    + rewrite Nat.odd_add.
      by destruct (running l), (Nat.odd k), (Nat.odd n).
Qed.

Lemma loop_stays (start_x start_y width height : Z)
    (inputs : list (Keys * Screen)) :
  Forall (λ i, ¬ exit_keys i.1) inputs →
  ∀ l d, ∃ l' d',
    run_ticks start_x start_y width height inputs l d = Returns (l', d').
Proof.
  induction 1 as [|[keyboard scr] rest Hstay _ IH]; intros l d.
  - by exists l, d.
  - simpl.
    destruct (detection_loop_cases start_x start_y width height
                keyboard scr l d)
      as [[Hexit _]|[_ (r' & d' & _ & -> & _)]]; [done|].
    apply IH.
Qed.

(** X15 — the log alternates. For a region of positive size, from the
    state [handle_detection] starts in, over any firings none of which
    leaves the program, the loop returns (screen grabs and OpenCV calls
    taken as succeeding), and the lines it has logged are
    "Started Bot..." and
    "Paused Bot..." in strict alternation, beginning with the former; the
    bot is running at the end exactly when their number is odd, and
    [was_running] and [was_paused] then mirror [running]. *)
Theorem loop_log_alternates (start_x start_y width height : Z)
    (inputs : list (Keys * Screen)) (d : Desk) :
  0 < width → 0 < height →
  Forall (λ i, ¬ exit_keys i.1) inputs →
  ∃ l' d' n,
    run_ticks start_x start_y width height inputs initial_loop d
      = Returns (l', d')
    ∧ console d' = console d ++ alternation false n
    ∧ running l' = Nat.odd n
    ∧ was_running l' = running l'
    ∧ was_paused l' = negb (running l').
Proof.
  intros _ _ Hstay.
  destruct (loop_stays start_x start_y width height inputs Hstay
              initial_loop d) as (l' & d' & Hrun).
  pose proof (run_ticks_console start_x start_y width height inputs
                initial_loop d eq_refl eq_refl) as Hconsole.
  rewrite Hrun in Hconsole.
  destruct Hconsole as (Hwr & Hwp & n & Hc & Hr).
  exists l', d', n. by repeat split.
Qed.

End LoopFacts.

(** ** Further properties: [get_logger] *)

(** X16 — the handler is installed once. However often [get_logger] is
    called (each module of the program calls it), the state of the
    logging module is the one the first call left: at most one handler is
    ever added. When the logger already has a handler, or propagates to a
    root logger that has one, [get_logger] adds nothing and leaves the
    level as it is. *)
Theorem get_logger_installs_once (st : Logger.Logging) (n : nat) :
  Nat.iter (S n) Logger.get_logger st = Logger.get_logger st
  ∧ (length (Logger.handlers (Nat.iter n Logger.get_logger st))
     ≤ S (length (Logger.handlers st)))%nat
  ∧ (Logger.hasHandlers st = true → Logger.get_logger st = st)
  ∧ (Logger.hasHandlers st = false →
     Logger.handlers (Logger.get_logger st) = [Logger.ColoredFormatter]
     ∧ Logger.level (Logger.get_logger st) = Logger.DEBUG).
Proof.
  assert (Hidem : ∀ st0,
    Logger.get_logger (Logger.get_logger st0) = Logger.get_logger st0).
  { intros st0. unfold Logger.get_logger at 2 3.
    destruct (Logger.hasHandlers st0) eqn:Hh; simpl.
    - unfold Logger.get_logger. by rewrite Hh.
    - unfold Logger.get_logger, Logger.hasHandlers. simpl.
      by destruct (Logger.handlers st0). }
  assert (Hiter : ∀ k,
    Nat.iter (S k) Logger.get_logger st = Logger.get_logger st).
  { induction k as [|k IH]; [done|].
    change (Nat.iter (S (S k)) Logger.get_logger st)
      with (Logger.get_logger (Nat.iter (S k) Logger.get_logger st)).
    by rewrite IH. }
  assert (Hone : (length (Logger.handlers (Logger.get_logger st))
                  ≤ S (length (Logger.handlers st)))%nat).
  { unfold Logger.get_logger. destruct (Logger.hasHandlers st); simpl.
    - lia.
    - rewrite length_app. simpl. lia. }
  split; [apply Hiter|]. split; [|split].
  - destruct n as [|n]; [simpl; lia|]. by rewrite Hiter.
  - intros Hh. unfold Logger.get_logger. by rewrite Hh.
  - intros Hh. unfold Logger.get_logger. rewrite Hh. simpl.
    unfold Logger.hasHandlers in Hh.
    by destruct (Logger.handlers st).
Qed.

(** ** The further properties on concrete inputs *)


(** The loop on a screen with a pink square: started, it clicks the square
    once per firing; paused, it stops; the two lines are logged. *)
Example loop_on_pink_square :
  match run_ticks (cv := Reference.cv) (mss := ReferenceScreen.mss)
          100 200 20 20 Inputs.start_wait_pause initial_loop
          ReferenceScreen.empty_desk with
  | Returns (l, d) =>
      running l = false
      ∧ mouse d = [Move 110 213; Click; Move 110 213; Click]
      ∧ console d = ["Started Bot..."; "Paused Bot..."]%string
  | _ => False
  end.
Proof. by vm_compute. Qed.

(** X1 at a concrete input: a file without [end_y]. *)
Lemma get_coordinates_missing_option_witness :
  Coordinate.files Inputs.incomplete_file !! "window_coordinates.txt"%string
    = Some Inputs.incomplete_options
  ∧ "end_y"%string ∈ coordinate_options
  ∧ Coordinate.environ Inputs.incomplete_file !! "end_y"%string = None
  ∧ Inputs.incomplete_options !! "end_y"%string = None
  ∧ Coordinate.get_coordinates Inputs.incomplete_file "window_coordinates.txt"
    = ([], Raise UndefinedValueError).
Proof.
  assert (H1 : Coordinate.files Inputs.incomplete_file
                 !! "window_coordinates.txt"%string
               = Some Inputs.incomplete_options) by (by vm_compute).
  assert (H2 : "end_y"%string ∈ coordinate_options).
  { unfold coordinate_options.
    repeat first [apply list_elem_of_here | apply list_elem_of_further]. }
  assert (H3 : Coordinate.environ Inputs.incomplete_file !! "end_y"%string
               = None) by (by vm_compute).
  assert (H4 : Inputs.incomplete_options !! "end_y"%string = None)
    by (by vm_compute).
  do 4 (split; [assumption|]).
  exact (get_coordinates_missing_option Inputs.incomplete_file
           "window_coordinates.txt" Inputs.incomplete_options "end_y"
           H1 H2 H3 H4).
Defined.

(** X2 at a concrete input: [start_x] is a superscript two. *)
Lemma get_coordinates_int_raises_witness :
  let two := String (ascii_of_N 178) EmptyString in
  Coordinate.files Scenes.superscript_file !! "window_coordinates.txt"%string
    = Some Inputs.superscript_options
  ∧ Coordinate.config Scenes.superscript_file Inputs.superscript_options
      "start_x" = Ok two
  ∧ Coordinate.config Scenes.superscript_file Inputs.superscript_options
      "end_x" = Ok "5"%string
  ∧ Coordinate.config Scenes.superscript_file Inputs.superscript_options
      "start_y" = Ok "20"%string
  ∧ Coordinate.config Scenes.superscript_file Inputs.superscript_options
      "end_y" = Ok "20"%string
  ∧ Forall (λ s, Coordinate.isdigit s = true) [two; "5"; "20"; "20"]%string
  ∧ Exists (λ s, Coordinate.all_chars Coordinate.is_decimal_char s = false
                 ∨ (Coordinate.int_max_str_digits < String.length s)%nat)
      [two; "5"; "20"; "20"]%string
  ∧ Coordinate.get_coordinates Scenes.superscript_file
      "window_coordinates.txt" = ([], Raise ValueError).
Proof.
  intros two.
  assert (H0 : Coordinate.files Scenes.superscript_file
                 !! "window_coordinates.txt"%string
               = Some Inputs.superscript_options) by (by vm_compute).
  assert (H1 : Coordinate.config Scenes.superscript_file
                 Inputs.superscript_options "start_x" = Ok two)
    by (by vm_compute).
  assert (H2 : Coordinate.config Scenes.superscript_file
                 Inputs.superscript_options "end_x" = Ok "5"%string)
    by (by vm_compute).
  assert (H3 : Coordinate.config Scenes.superscript_file
                 Inputs.superscript_options "start_y" = Ok "20"%string)
    by (by vm_compute).
  assert (H4 : Coordinate.config Scenes.superscript_file
                 Inputs.superscript_options "end_y" = Ok "20"%string)
    by (by vm_compute).
  assert (H5 : Forall (λ s, Coordinate.isdigit s = true)
                 [two; "5"; "20"; "20"]%string)
    by (repeat constructor).
  assert (H6 : Exists
                 (λ s, Coordinate.all_chars Coordinate.is_decimal_char s
                       = false
                       ∨ (Coordinate.int_max_str_digits < String.length s)%nat)
                 [two; "5"; "20"; "20"]%string)
    by (apply Exists_cons_hd; left; reflexivity).
  do 7 (split; [assumption|]).
  exact (get_coordinates_int_raises Scenes.superscript_file
           "window_coordinates.txt" Inputs.superscript_options
           two "5" "20" "20" H0 H1 H2 H3 H4 H5 H6).
Defined.

(** X4 at a concrete input: a well-formed file. *)
Lemma get_coordinates_accepts_decimals_witness :
  Coordinate.files Scenes.good_file !! "window_coordinates.txt"%string
    = Some Inputs.good_options
  ∧ Coordinate.config Scenes.good_file Inputs.good_options "start_x"
    = Ok "100"%string
  ∧ Coordinate.config Scenes.good_file Inputs.good_options "end_x"
    = Ok "500"%string
  ∧ Coordinate.config Scenes.good_file Inputs.good_options "start_y"
    = Ok "200"%string
  ∧ Coordinate.config Scenes.good_file Inputs.good_options "end_y"
    = Ok "900"%string
  ∧ Forall (λ s, s ≠ EmptyString
                 ∧ Coordinate.all_chars Coordinate.is_decimal_char s = true
                 ∧ (String.length s ≤ Coordinate.int_max_str_digits)%nat)
      ["100"; "500"; "200"; "900"]%string
  ∧ Coordinate.get_coordinates Scenes.good_file "window_coordinates.txt"
    = ([], Ok (Some (Coordinate.decimal_value 0 "100",
                     Coordinate.decimal_value 0 "200",
                     Coordinate.decimal_value 0 "500"
                     - Coordinate.decimal_value 0 "100",
                     Coordinate.decimal_value 0 "900"
                     - Coordinate.decimal_value 0 "200"))).
Proof.
  assert (H0 : Coordinate.files Scenes.good_file
                 !! "window_coordinates.txt"%string
               = Some Inputs.good_options) by (by vm_compute).
  assert (H1 : Coordinate.config Scenes.good_file Inputs.good_options
                 "start_x" = Ok "100"%string) by (by vm_compute).
  assert (H2 : Coordinate.config Scenes.good_file Inputs.good_options
                 "end_x" = Ok "500"%string) by (by vm_compute).
  assert (H3 : Coordinate.config Scenes.good_file Inputs.good_options
                 "start_y" = Ok "200"%string) by (by vm_compute).
  assert (H4 : Coordinate.config Scenes.good_file Inputs.good_options
                 "end_y" = Ok "900"%string) by (by vm_compute).
  assert (H5 : Forall
                 (λ s, s ≠ EmptyString
                       ∧ Coordinate.all_chars Coordinate.is_decimal_char s
                         = true
                       ∧ (String.length s
                          ≤ Coordinate.int_max_str_digits)%nat)
                 ["100"; "500"; "200"; "900"]%string).
  { repeat constructor; try discriminate;
      unfold Coordinate.int_max_str_digits; simpl; lia. }
  do 6 (split; [assumption|]).
  exact (get_coordinates_accepts_decimals Scenes.good_file
           "window_coordinates.txt" Inputs.good_options
           "100" "500" "200" "900" H0 H1 H2 H3 H4 H5).
Defined.



(** X9 at a concrete input: a candidate with a bomb blob 150 pixels away. *)
Lemma detect_objects_footprint_witness :
  let s := Scenes.candidate_and_hazard 160 in
  heap s !! 0%nat = Some (Msk (Scenes.blob_mask 20 170 8 8 5))
  ∧ mask_bomb (self s) = Some 1%nat
  ∧ heap s !! 1%nat = Some (Msk (Scenes.blob_mask 20 170 8 158 5))
  ∧ ∃ out s',
      detect_objects (cv := Reference.cv) 0%nat "green" s = Ok (out, s')
      ∧ heap s' = heap s ∧ self s' = self s.
Proof.
  intros s. do 3 (split; [reflexivity|]).
  destruct (detect_objects_footprint (cv := Reference.cv) s 0%nat 1%nat
              (Scenes.blob_mask 20 170 8 8 5)
              (Scenes.blob_mask 20 170 8 158 5) "green"
              eq_refl eq_refl eq_refl)
    as (out & s' & Hrun & Hheap & Hself & _).
  exists out, s'. split; [exact Hrun|]. split; [exact Hheap|exact Hself].
Defined.

(** X10 at a concrete input: the same candidate. *)
Lemma green_detections_among_pink_witness :
  let s := Scenes.candidate_and_hazard 160 in
  heap s !! 0%nat = Some (Msk (Scenes.blob_mask 20 170 8 8 5))
  ∧ mask_bomb (self s) = Some 1%nat
  ∧ heap s !! 1%nat = Some (Msk (Scenes.blob_mask 20 170 8 158 5))
  ∧ ∃ green pink sg sp,
      detect_objects (cv := Reference.cv) 0%nat "green" s = Ok (green, sg)
      ∧ detect_objects (cv := Reference.cv) 0%nat "pink" s = Ok (pink, sp)
      ∧ green `sublist_of` pink.
Proof.
  intros s. do 3 (split; [reflexivity|]).
  exact (green_detections_among_pink (cv := Reference.cv) s 0%nat 1%nat
           (Scenes.blob_mask 20 170 8 8 5)
           (Scenes.blob_mask 20 170 8 158 5) eq_refl eq_refl eq_refl).
Defined.

(** X11 at a concrete input: a region of height 100 whose origin is 500
    pixels down the screen. *)
Lemma green_empty_when_region_low_witness :
  let s := Scenes.green_candidate 500 45 in
  contours_on_foreground Reference.cv
  ∧ heap s !! 0%nat = Some (Msk (Scenes.blob_mask 100 100 45 45 10))
  ∧ mask_bomb (self s) = Some 1%nat
  ∧ heap s !! 1%nat = Some (Msk (Scenes.blob_mask 100 100 0 0 0))
  ∧ Z.of_nat (length (Scenes.blob_mask 100 100 45 45 10)) = height (self s)
  ∧ Forall (λ row, Z.of_nat (length row) = width (self s))
      (Scenes.blob_mask 100 100 45 45 10)
  ∧ height (self s) ≤ start_y (self s) + height (self s) `quot` 10
  ∧ ∃ s', detect_objects (cv := Reference.cv) 0%nat "green" s = Ok ([], s').
Proof.
  intros s.
  assert (Hcols : Forall (λ row, Z.of_nat (length row) = width (self s))
                    (Scenes.blob_mask 100 100 45 45 10)).
  { unfold Scenes.blob_mask, Scenes.paint.
    apply Forall_fmap, Forall_true. intros r. unfold compose.
    rewrite (length_fmap _ (seq 0 100)), length_seq. reflexivity. }
  assert (Hlow : height (self s)
                 ≤ start_y (self s) + height (self s) `quot` 10)
    by (by vm_compute).
  split; [exact ReferenceFacts.contract|]. do 4 (split; [reflexivity|]).
  split; [exact Hcols|]. split; [exact Hlow|].
  exact (green_empty_when_region_low (cv := Reference.cv) s 0%nat 1%nat
           (Scenes.blob_mask 100 100 45 45 10)
           (Scenes.blob_mask 100 100 0 0 0)
           ReferenceFacts.contract eq_refl eq_refl eq_refl eq_refl
           Hcols Hlow).
Defined.


(** X14 at a concrete input: two firings without 's'. *)
Lemma no_click_before_start_witness :
  Forall (λ i : Keys * (Z → Z → BGRA), s_pressed i.1 = false)
    Inputs.never_started
  ∧ match run_ticks (cv := Reference.cv) (mss := ReferenceScreen.mss)
            100 200 20 20 Inputs.never_started initial_loop
            ReferenceScreen.empty_desk with
    | Returns (l', d') =>
        running l' = false
        ∧ store d' = store ReferenceScreen.empty_desk
        ∧ cv_calls d' = cv_calls ReferenceScreen.empty_desk
        ∧ mouse d' = mouse ReferenceScreen.empty_desk
    | Exits => True
    | Raises _ => False
    end.
Proof.
  assert (Hkeys : Forall (λ i : Keys * (Z → Z → BGRA), s_pressed i.1 = false)
                    Inputs.never_started) by (repeat constructor).
  split; [exact Hkeys|].
  exact (no_click_before_start (cv := Reference.cv)
           (mss := ReferenceScreen.mss) 100 200 20 20 Inputs.never_started
           ReferenceScreen.empty_desk Hkeys).
Defined.

(** X15 at a concrete input: started, left alone, paused. *)
Lemma loop_log_alternates_witness :
  0 < 20 ∧ 0 < 20
  ∧ Forall (λ i : Keys * (Z → Z → BGRA), ¬ exit_keys i.1)
    Inputs.start_wait_pause
  ∧ ∃ l' d' n,
      run_ticks (cv := Reference.cv) (mss := ReferenceScreen.mss)
        100 200 20 20 Inputs.start_wait_pause initial_loop
        ReferenceScreen.empty_desk = Returns (l', d')
      ∧ console d' = console ReferenceScreen.empty_desk ++ alternation false n
      ∧ running l' = Nat.odd n
      ∧ was_running l' = running l'
      ∧ was_paused l' = negb (running l').
Proof.
  assert (Hstay : Forall (λ i : Keys * (Z → Z → BGRA), ¬ exit_keys i.1)
                    Inputs.start_wait_pause).
  { repeat constructor; intros (_ & _ & Hc); discriminate Hc. }
  assert (H20 : 0 < 20) by lia.
  do 2 (split; [exact H20|]). split; [exact Hstay|].
  exact (loop_log_alternates (cv := Reference.cv)
           (mss := ReferenceScreen.mss) 100 200 20 20
           Inputs.start_wait_pause ReferenceScreen.empty_desk H20 H20 Hstay).
Defined.

(** X13 at a concrete input: started, left alone, paused. *)
Lemma loop_leaves_only_on_ctrl_c_witness :
  0 < 20 ∧ 0 < 20
  ∧ match run_ticks (cv := Reference.cv) (mss := ReferenceScreen.mss)
            100 200 20 20 Inputs.start_wait_pause initial_loop
            ReferenceScreen.empty_desk with
    | Returns _ =>
        Forall (λ i : Keys * (Z → Z → BGRA), ¬ exit_keys i.1)
          Inputs.start_wait_pause
    | Exits =>
        Exists (λ i : Keys * (Z → Z → BGRA), exit_keys i.1)
          Inputs.start_wait_pause
    | Raises _ => False
    end.
Proof.
  assert (H20 : 0 < 20) by lia.
  do 2 (split; [exact H20|]).
  exact (loop_leaves_only_on_ctrl_c (cv := Reference.cv)
           (mss := ReferenceScreen.mss) 100 200 20 20
           Inputs.start_wait_pause initial_loop ReferenceScreen.empty_desk
           H20 H20).
Defined.
